(** * Financial life coach: planning engine, product scoring and alert rules

    A shallow embedding of the deterministic parts of the repository:

    - [Engine]         : [financial_engine.py] (rate table, SIP sizing, cash-flow
                         summary, predictive alerts, credit-card scoring);
    - [Recommendation] : [backend/app/services/recommendation_service.py]
                         ([_calculate_match_score] and the 0.5 cutoff);
    - [AlertService]   : [backend/app/services/alert_service.py] (the persisted
                         alert generator and its de-duplication queries);
    - [Dashboard]      : [streamlit_app.py] (the recommended SIP and the average
                         horizon handed from the plans to the other functions).

    Modelling conventions.  Python [float]s are exact rationals ([Q]): the
    development is about the formulas, not about binary64 rounding, overflow or
    NaN.  Python [int]s are [Z].  A raised exception is [None] in the option
    monad.  Dictionary keys read with [.get(key, default)] are [option] fields
    ([None] = key absent).  Text produced by format specifications and by the
    language model is supplied by an environment class. *)

From Stdlib Require Import QArith Qabs Qround Qpower Qfield Qminmax ZArith Lia Lqa.
From Stdlib Require Import String Ascii List DecimalString Sorted.
From stdpp Require Import base option list gmap strings.

(** ** Python primitives *)

Module Py.
Local Open Scope Q_scope.

(** Numeric arguments as the callers can pass them: [None], an [int] or a
    [float]. *)
Inductive py_num :=
| PyNone
| PyInt (n : Z)
| PyFloat (x : Q).

(** [int(x)] on a float: truncation toward zero. *)
Definition trunc (x : Q) : Z := Z.quot (Qnum x) (Zpos (Qden x)).

(** [int(v)]: [TypeError] on [None]. *)
Definition int (v : py_num) : option Z :=
  match v with
  | PyNone => None
  | PyInt n => Some n
  | PyFloat x => Some (trunc x)
  end.

(** [float(v)]: [TypeError] on [None]. *)
Definition float (v : py_num) : option Q :=
  match v with
  | PyNone => None
  | PyInt n => Some (inject_Z n)
  | PyFloat x => Some x
  end.

(** [max(a, b)] and [min(a, b)] on numbers: the first argument is kept unless
    the second is strictly better. *)
Definition max (a b : Q) : Q := if Qlt_le_dec a b then b else a.
Definition min (a b : Q) : Q := if Qlt_le_dec b a then b else a.

(** Truthiness of a number ([if x:]) and of an optional number. *)
Definition truthy (x : Q) : bool := negb (Qeq_bool x 0).
Definition truthy_opt (x : option Q) : bool :=
  match x with Some q => truthy q | None => false end.

(** Truthiness of an optional string: present and not empty. *)
Definition truthy_str (s : option string) : bool :=
  match s with
  | Some (String _ _) => true
  | _ => false
  end.

Definition Qltb (a b : Q) : bool := if Qlt_le_dec a b then true else false.

(** [str.lower()], on the ASCII letters. *)
Definition lower_ascii (c : ascii) : ascii :=
  let n := nat_of_ascii c in
  if ((65 <=? n) && (n <=? 90))%nat then ascii_of_nat (n + 32) else c.

Fixpoint lower (s : string) : string :=
  match s with
  | EmptyString => EmptyString
  | String c s' => String (lower_ascii c) (lower s')
  end.

(** [ord(c)]. *)
Definition ord (c : ascii) : Z := Z.of_nat (nat_of_ascii c).


End Py.

(** ** financial_engine.py *)

Module Engine.
Import Py.
Local Open Scope Q_scope.

Record GoalPlan := {
  name : string;
  target_amount : Q;
  years : Q;
  priority : string;
  monthly_investment : Q;
  projected_value : Q;
  explanation : string
}.

(** A goal dictionary.  Each field is [None] when the key is absent. *)
Record goal := {
  g_goal : option string;
  g_target_amount : option py_num;
  g_years : option py_num;
  g_priority : option string
}.

(** What the planner takes from outside: the rendering of the format
    specifications [:.1%], [:,.0f], [:.1f], the [USE_LLM_EXPLAIN] toggle and the
    language-model call (which returns [None] on any failure). *)
Class PlannerEnv := {
  fmt_pct1 : Q -> string;
  fmt_money0 : Q -> string;
  fmt_f1 : Q -> string;
  _use_llm_explanations : bool;
  explain_plan_with_llm : GoalPlan -> py_num -> option string
}.

(** The [mapping] dictionary of [_annual_return_from_risk]. *)
Definition mapping (k : Z) : option Q :=
  match k with
  | 1%Z => Some 0.065
  | 2%Z => Some 0.08
  | 3%Z => Some 0.105
  | 4%Z => Some 0.12
  | 5%Z => Some 0.145
  | _ => None
  end.

Definition _annual_return_from_risk (risk_score : py_num) : option Q :=
  n ← int risk_score;
  Some (default 0.1 (mapping n)).

(** [months = max(int(years * 12), 1)]. *)
Definition sip_months (years : Q) : Z := Z.max (trunc (years * 12)) 1.

Definition _sip_required (target_amount years annual_return : Q) : Q * Q :=
  let months := sip_months years in
  let monthly_rate := max (annual_return / 12) 0.0001 (* 1e-4 *) in
  let growth_factor := (1 + monthly_rate) ^ months in
  let monthly_investment := target_amount * monthly_rate / (growth_factor - 1) in
  let projected_value := monthly_investment * (growth_factor - 1) / monthly_rate in
  (monthly_investment, projected_value).

Section Planner.
Context {env : PlannerEnv}.

(** The body of the loop of [build_goal_plans]: [None] is [continue]. *)
Definition plan_goal (risk_score : py_num) (risk_rate : Q) (g : goal)
  : option GoalPlan :=
  target_amount ← float (default (PyInt 0) (g_target_amount g));
  years ← float (default (PyInt 1) (g_years g));
  let priority := lower (default "medium"%string (g_priority g)) in
  let '(monthly_investment, projected_value) :=
    _sip_required target_amount years risk_rate in
  let base_explanation :=
    ("Uses a " ++ fmt_pct1 risk_rate ++ " annual return aligned to risk profile "
     ++ "to fund ₹" ++ fmt_money0 target_amount ++ " in " ++ fmt_f1 years
     ++ " years. " ++ "Requires SIP of ₹" ++ fmt_money0 monthly_investment
     ++ "/month.")%string in
  let mk e := {| name := default "Goal"%string (g_goal g);
                 target_amount := target_amount;
                 years := years;
                 priority := priority;
                 monthly_investment := monthly_investment;
                 projected_value := projected_value;
                 explanation := e |} in
  let explanation :=
    if _use_llm_explanations then
      match explain_plan_with_llm (mk base_explanation) risk_score with
      | Some (String c t) =>
          (base_explanation ++ " AI coach explanation: " ++ String c t)%string
      | _ => base_explanation
      end
    else base_explanation in
  Some (mk explanation).

(** [build_goal_plans]: raises ([None]) only when the risk score cannot be
    coerced; goals that do not coerce are skipped. *)
Definition build_goal_plans (goals : list goal) (risk_score : py_num)
  : option (list GoalPlan) :=
  risk_rate ← _annual_return_from_risk risk_score;
  Some (omap (plan_goal risk_score risk_rate) goals).

End Planner.

(** [runway_months]: a number of months or [math.inf]. *)
Inductive runway :=
| Months (m : Q)
| Inf.

Record cash_summary := {
  surplus : Q;
  runway_months : runway;
  savings_rate : Q;
  recommended_sip : Q
}.

Definition summarize_cash_flow
  (monthly_income monthly_expense existing_sips emi recommended_sip cash_reserve : Q)
  : cash_summary :=
  let surplus :=
    monthly_income - (monthly_expense + existing_sips + recommended_sip + emi) in
  let burn := monthly_expense + emi in
  let runway_months := if truthy burn then Months (cash_reserve / burn) else Inf in
  let savings_rate :=
    if truthy monthly_income
    then max ((monthly_income - monthly_expense) / monthly_income) 0
    else 0 in
  {| surplus := surplus;
     runway_months := runway_months;
     savings_rate := savings_rate;
     recommended_sip := recommended_sip |}.

(** [runway < 3]. *)
Definition runway_below (r : runway) (bound : Q) : bool :=
  match r with
  | Months m => Qltb m bound
  | Inf => false
  end.

Definition fmt_runway {env : PlannerEnv} (r : runway) : string :=
  match r with
  | Months m => fmt_f1 m
  | Inf => "inf"
  end.

Definition deficit_msg : string :=
  "Projected monthly cash deficit could cause SIP or EMI misses. Increase income or cut variable spends.".
Definition thin_surplus_msg : string :=
  "Surplus under ₹5k; a single large bill can derail goals. Move discretionary spends to UPI alerts.".
Definition low_reserve_msg {env : PlannerEnv} (r : runway) : string :=
  ("Emergency reserve covers only " ++ fmt_runway r
   ++ " months. Target 6x monthly burn for resilience.")%string.
Definition low_savings_msg : string :=
  "Savings rate below 20% of income. Automate transfers on salary day to raise investible surplus.".
Definition healthy_msg : string :=
  "Cash runway and surplus look healthy for upcoming SIPs.".

Definition predictive_alerts {env : PlannerEnv} (cs : cash_summary) : list string :=
  let alerts := [] in
  let alerts :=
    if Qltb (surplus cs) 0 then alerts ++ [deficit_msg]
    else if Qltb (surplus cs) 5000 then alerts ++ [thin_surplus_msg]
    else alerts in
  let alerts :=
    if runway_below (runway_months cs) 3
    then alerts ++ [low_reserve_msg (runway_months cs)] else alerts in
  let alerts :=
    if Qltb (savings_rate cs) 0.2 then alerts ++ [low_savings_msg] else alerts in
  match alerts with
  | [] => [healthy_msg]
  | _ => alerts
  end.




(** Reading of [runway >= bound], used to state the alert rules. *)
Definition runway_at_least (r : runway) (bound : Q) : Prop :=
  match r with
  | Months m => bound <= m
  | Inf => True
  end.


(** Partial sums [1 + x + ... + x^(n-1)], the annuity factor behind the SIP
    formula. *)
Fixpoint geom (x : Q) (n : nat) : Q :=
  match n with
  | O => 0
  | S k => 1 + x * geom x k
  end.

(** A sample input: one of the default goals of the Streamlit front end. *)
Definition education_goal : goal :=
  {| g_goal := Some "Child education corpus"%string;
     g_target_amount := Some (PyInt 1500000);
     g_years := Some (PyInt 8);
     g_priority := Some "high"%string |}.

(** An environment without language model, with constant renderings. *)
Definition plain_env : PlannerEnv :=
  {| fmt_pct1 := fun _ => "?"%string;
     fmt_money0 := fun _ => "?"%string;
     fmt_f1 := fun _ => "?"%string;
     _use_llm_explanations := false;
     explain_plan_with_llm := fun _ _ => None |}.

(** The deterministic explanation of a plan (the [base_explanation] of
    [build_goal_plans]). *)
Definition base_explanation {env : PlannerEnv}
  (risk_rate target_amount years monthly_investment : Q) : string :=
  ("Uses a " ++ fmt_pct1 risk_rate ++ " annual return aligned to risk profile "
   ++ "to fund ₹" ++ fmt_money0 target_amount ++ " in " ++ fmt_f1 years
   ++ " years. " ++ "Requires SIP of ₹" ++ fmt_money0 monthly_investment
   ++ "/month.")%string.

(** The name a goal is planned under, and whether its amount and horizon
    coerce to numbers. *)
Definition goal_name (g : goal) : string := default "Goal"%string (g_goal g).

Definition coercible (g : goal) : Prop :=
  is_Some (float (default (PyInt 0) (g_target_amount g)))
  ∧ is_Some (float (default (PyInt 1) (g_years g))).

#[global] Instance coercible_dec (g : goal) : Decision (coercible g).
Proof. unfold coercible. apply _. Defined.

(** Two plans that agree on everything but the explanation. *)
Definition same_numbers (p q : GoalPlan) : Prop :=
  name p = name q ∧ target_amount p = target_amount q ∧ years p = years q ∧
  priority p = priority q ∧ monthly_investment p = monthly_investment q ∧
  projected_value p = projected_value q.

(** *** [recommend_products] *)

(** The catalogue entries of the two other classes, the catalogue and the
    profile dictionaries. *)
Record fund := {
  fund_name : string;
  fund_risk_score : option Q;
  expected_return : option Q;
  ideal_horizon_years : option Q;
  goal_alignment : option (list string);
  fund_why : option string
}.



Record profile := {
  risk_score : option Q;
  monthly_income : option Q;
  cash_reserve : option Q;
  goals : option (list goal);
  avg_goal_horizon : option Q
}.

(** [goal_types]: the lower-cased [goal] entries of the profile's goals, the
    empty string for a goal without one. *)
Definition goal_types (p : profile) : gset string :=
  list_to_set (map (λ g, lower (default EmptyString (g_goal g)))
                 (default [] (goals p))).

Definition score_mutual_fund (p : profile) (item : fund) : Q :=
  let risk := default 3 (risk_score p) in
  let score := 0 in
  let score := score - Qabs (default 3 (fund_risk_score item) - risk) * 0.7 in
  let horizon := default 5 (avg_goal_horizon p) in
  let score :=
    score - Qabs (default 5 (ideal_horizon_years item) - horizon) * 0.2 in
  let score :=
    if existsb (λ tag, bool_decide (tag ∈ goal_types p))
         (default [] (goal_alignment item))
    then score + 1 else score in
  score + default 0 (expected_return item).


(** [sorted(items, key=key, reverse=True)]: descending by key, items with
    equal keys in their original order. *)
Fixpoint insert_desc {A} (key : A → Q) (x : A) (l : list A) : list A :=
  match l with
  | [] => [x]
  | y :: l' => if Qltb (key x) (key y) then y :: insert_desc key x l' else x :: l
  end.

Fixpoint sorted_desc {A} (key : A → Q) (l : list A) : list A :=
  match l with
  | [] => []
  | x :: l' => insert_desc key x (sorted_desc key l')
  end.

(** [sorted(items, key=key, reverse=True)[:k]]. *)
Definition select {A} (k : nat) (key : A → Q) (items : list A) : list A :=
  take k (sorted_desc key items).

(** An entry of the result: name, rationale, and the [meta] dictionary (the
    class tag and the attributes of the item other than name and rationale). *)
Record recommendation (M : Type) := {
  rec_name : string;
  rec_why : string;
  rec_kind : string;
  rec_meta : M
}.
Arguments rec_name {M}.
Arguments rec_why {M}.
Arguments rec_kind {M}.
Arguments rec_meta {M}.

Record fund_meta := {
  m_risk_score : option Q;
  m_expected_return : option Q;
  m_ideal_horizon_years : option Q;
  m_goal_alignment : option (list string)
}.

Record card_meta := {
  m_best_for : option (list string);
  m_min_income : option Q;
  m_annual_fee : option Q
}.

Record deposit_meta := {
  m_interest_rate : option Q;
  m_min_amount : option Q;
  m_lock_in : option string
}.


Record recommendations := {
  r_mutual_funds : list (recommendation fund_meta);
  r_credit_cards : list (recommendation card_meta);
  r_savings : list (recommendation deposit_meta)
}.






(** Descending order of the keys. *)
Definition descending {A} (key : A → Q) (l : list A) : Prop :=
  StronglySorted (λ a b, (key b <= key a)%Q) l.

(** One element stands before another in a list. *)
Definition before {A} (a b : A) (l : list A) : Prop :=
  ∃ l1 l2 l3, l = l1 ++ a :: l2 ++ b :: l3.

(** Further sample inputs: another default goal of the front end, a goal
    whose amount is [None], two savings products and a profile with a
    reserve of 50000. *)
Definition emergency_goal : goal :=
  {| g_goal := Some "Emergency fund top-up"%string;
     g_target_amount := Some (PyInt 400000);
     g_years := Some (PyInt 2);
     g_priority := Some "high"%string |}.

Definition unpriced_goal : goal :=
  {| g_goal := Some "Holiday"%string;
     g_target_amount := Some PyNone;
     g_years := Some (PyInt 2);
     g_priority := None |}.





End Engine.

(** ** backend/app/services/recommendation_service.py *)

Module Recommendation.
Import Py.
Local Open Scope Q_scope.

Inductive ProductType :=
| MUTUAL_FUND | SIP | FD | RD | STOCK | BOND | INSURANCE | PPF | CREDIT_CARD
| OTHER.

Inductive RiskLevel := LOW | MEDIUM | HIGH.

#[export] Instance ProductType_eq_dec : EqDecision ProductType.
Proof. solve_decision. Defined.
#[export] Instance RiskLevel_eq_dec : EqDecision RiskLevel.
Proof. solve_decision. Defined.

(** The string value of the enumeration member ([RiskLevel.LOW.value]). *)
Definition value (r : RiskLevel) : string :=
  match r with
  | LOW => "low"
  | MEDIUM => "medium"
  | HIGH => "high"
  end.

(** The columns of [Product] read by the scorer. *)
Record Product := {
  name : string;
  product_type : ProductType;
  risk_level : RiskLevel;
  min_investment : option Q;
  expected_return : option Q;
  annual_fee : option Q;
  rewards_type : option string;
  welcome_bonus : option string
}.

(** The [user_profile] dictionary.  The outer [option] is the presence of the
    key, the inner one the nullable column it was filled from. *)
Record user_profile := {
  age : option (option Z);
  income : option (option Q);
  risk_tolerance : option (option string)
}.

Definition risk_mapping (k : string) : option RiskLevel :=
  if String.eqb k "conservative" then Some LOW
  else if String.eqb k "moderate" then Some MEDIUM
  else if String.eqb k "aggressive" then Some HIGH
  else None.

(** [risk_mapping.get(user_profile.get("risk_tolerance", "moderate"))]. *)
Definition user_risk (u : user_profile) : option RiskLevel :=
  default (Some "moderate"%string) (risk_tolerance u) ≫= risk_mapping.

(** [user_profile.get("income")]. *)
Definition get_income (u : user_profile) : option Q := default None (income u).

(** [user_profile.get("age", 30)]. *)
Definition get_age (u : user_profile) : option Z := default (Some 30%Z) (age u).

(** [s[0]]: [IndexError] on the empty string. *)
Definition first_char (s : string) : option ascii :=
  match s with
  | String c _ => Some c
  | EmptyString => None
  end.

Definition is_in (t : ProductType) (ts : list ProductType) : bool :=
  bool_decide (t ∈ ts).

(** Risk tolerance matching.  Reading [.value] of a missing [user_risk]
    raises. *)
Definition risk_step (product : Product) (u : user_profile) (score : Q)
  : option Q :=
  if bool_decide (Some (risk_level product) = user_risk u) then Some (score + 0.3)
  else
    c1 ← first_char (value (risk_level product));
    ur ← user_risk u;
    c2 ← first_char (value ur);
    if (Z.abs (ord c1 - ord c2) =? 1)%Z then Some (score + 0.15) else Some score.

(** Income-based matching. *)
Definition income_step (product : Product) (u : user_profile) (score : Q) : Q :=
  match get_income u with
  | Some inc =>
      if truthy inc then
        if truthy_opt (min_investment product)
           && Qle_bool (default 0 (min_investment product)) (inc * 0.1)
        then score + 0.1
        else if negb (truthy_opt (min_investment product)) then score + 0.1
        else score
      else score
  | None => score
  end.

(** Age-based matching.  Comparing a missing age raises. *)
Definition age_step (product : Product) (u : user_profile) (score : Q)
  : option Q :=
  a ← get_age u;
  if (a <? 30)%Z && is_in (product_type product) [MUTUAL_FUND; SIP]
  then Some (score + 0.1)
  else if (50 <? a)%Z && is_in (product_type product) [FD; PPF]
  then Some (score + 0.1)
  else Some score.

(** Goal horizon bias. *)
Definition horizon_step (product : Product) (goal_horizon_months : option Q)
  (score : Q) : Q :=
  match goal_horizon_months with
  | Some h =>
      if truthy h then
        if Qle_bool h 12 then
          if is_in (product_type product) [FD; RD; CREDIT_CARD]
          then score + 0.1 else score
        else
          if is_in (product_type product) [MUTUAL_FUND; SIP; INSURANCE; PPF]
          then score + 0.1 else score
      else score
  | None => score
  end.

(** Credit card suitability. *)
Definition card_step (product : Product) (u : user_profile) (score : Q) : Q :=
  if bool_decide (product_type product = CREDIT_CARD) then
    let score :=
      match get_income u, annual_fee product with
      | Some inc, Some fee =>
          if truthy inc && truthy fee && Qltb fee (inc * 0.02)
          then score + 0.05 else score
      | _, _ => score
      end in
    if truthy_str (rewards_type product) then score + 0.05 else score
  else score.

Definition _calculate_match_score (product : Product) (u : user_profile)
  (goal_horizon_months : option Q) : option Q :=
  let score := 0.5 in
  score ← risk_step product u score;
  let score := income_step product u score in
  score ← age_step product u score;
  let score := horizon_step product goal_horizon_months score in
  let score := card_step product u score in
  Some (min score 1).

(** The filter of [get_recommendations]: [match_score > 0.5]. *)
Definition recommended (match_score : Q) : bool := Qltb 0.5 match_score.

(** The sum of the bonuses alone: the same steps, counted from zero. *)
Definition earned_bonus (product : Product) (u : user_profile)
  (goal_horizon_months : option Q) : option Q :=
  b ← risk_step product u 0;
  let b := income_step product u b in
  b ← age_step product u b;
  let b := horizon_step product goal_horizon_months b in
  Some (card_step product u b).

(** Sample rows. *)
Definition equity_fund (r : RiskLevel) : Product :=
  {| name := "Equity fund"; product_type := STOCK; risk_level := r;
     min_investment := None; expected_return := Some 12; annual_fee := None;
     rewards_type := None; welcome_bonus := None |}.

Definition profile_of (tolerance : string) : user_profile :=
  {| age := Some (Some 35%Z); income := Some None;
     risk_tolerance := Some (Some tolerance) |}.

(** *** The rest of [RecommendationService] *)

(** What the service takes from outside: the rendering of a float in an
    f-string and the language model's reasoning ([None] when the call
    raises). *)
Class Collaborators := {
  str_float : Q → string;
  generate_recommendation_reasoning : Product → user_profile → option string
}.

(** The [risk_mapping] of [_get_suitability_factors], read with
    [.get(user_risk, "moderate risk")]. *)
Definition factor_risk_mapping (user_risk : option string) : string :=
  match user_risk with
  | Some k =>
      if String.eqb k "conservative" then "low risk"
      else if String.eqb k "moderate" then "moderate risk"
      else if String.eqb k "aggressive" then "high risk"
      else "moderate risk"
  | None => "moderate risk"
  end.

(** [f"{user_risk}"] for a string or [None]. *)
Definition str_opt (s : option string) : string := default "None"%string s.

Definition _get_suitability_factors {co : Collaborators} (product : Product)
  (u : user_profile) (goal_horizon_months : option Q) : list string :=
  let factors := [] in
  let user_risk := default (Some "moderate"%string) (risk_tolerance u) in
  let factors :=
    if String.eqb (value (risk_level product)) (factor_risk_mapping user_risk)
    then factors ++ [("Matches your " ++ str_opt user_risk
                      ++ " risk tolerance")%string]
    else factors in
  let factors :=
    match expected_return product with
    | Some r =>
        if truthy r
        then factors ++ [("Expected return: " ++ str_float r
                          ++ "% annually")%string]
        else factors
    | None => factors
    end in
  let factors :=
    match min_investment product, get_income u with
    | Some m, Some inc =>
        if truthy m && truthy inc then
          if Qle_bool m (inc * 0.1)
          then factors ++ ["Affordable minimum investment"%string]
          else factors
        else factors
    | _, _ => factors
    end in
  let factors :=
    match goal_horizon_months with
    | Some h =>
        if truthy h then
          let horizon_label :=
            if Qle_bool h 12 then "short-term"%string else "long-term"%string in
          factors ++ [("Aligned to " ++ horizon_label ++ " horizon")%string]
        else factors
    | None => factors
    end in
  if bool_decide (product_type product = CREDIT_CARD) then
    let factors :=
      match annual_fee product with
      | Some fee => factors ++ [("Annual fee: " ++ str_float fee)%string]
      | None => factors
      end in
    let factors :=
      match rewards_type product with
      | Some (String c t) => factors ++ [("Rewards focus: " ++ String c t)%string]
      | _ => factors
      end in
    match welcome_bonus product with
    | Some (String c t) => factors ++ [("Welcome bonus: " ++ String c t)%string]
    | _ => factors
    end
  else factors.

(** [_calculate_recommended_investment]: [None] is the returned [None]. *)
Definition _calculate_recommended_investment (product : Product)
  (u : user_profile) : option Q :=
  match get_income u with
  | Some income =>
      if truthy income then
        match min_investment product with
        | Some m =>
            if truthy m then Some (max m (income * 0.1))
            else Some (income * 0.15)
        | None => Some (income * 0.15)
        end
      else None
  | None => None
  end.

(** Rows of the tables read by [get_recommendations]. *)
Record User := {
  u_id : Z;
  u_age : option Z;
  u_income : option Q;
  u_risk_tolerance : option string
}.

Record GoalRow := {
  g_id : Z;
  g_user_id : Z;
  target_date : option Z;
  created_at : option Z
}.

Record Database := {
  users : list User;
  goals : list GoalRow;
  products : list Product
}.

Record ProductRecommendation := {
  product : Product;
  match_score : Q;
  reasoning : string;
  suitability_factors : list string;
  recommended_investment : option Q
}.

(** Timestamps are microseconds; [timedelta.days] floors. *)
Definition microseconds_per_day : Z := 86400000000.

(** The optional goal context of [get_recommendations]. *)
Definition goal_horizon (db : Database) (user_id : Z) (goal_id : option Z)
  : option Q :=
  match goal_id with
  | Some gid =>
      if (gid =? 0)%Z then None
      else
        match List.find (λ g, bool_decide (g_id g = gid)
                              && bool_decide (g_user_id g = user_id))
                (goals db) with
        | Some goal =>
            match target_date goal, created_at goal with
            | Some target, Some created =>
                let delta_days := ((target - created) / microseconds_per_day)%Z in
                if (0 <? delta_days)%Z
                then Some (max (inject_Z delta_days / 30) 1)
                else None
            | _, _ => None
            end
        | None => None
        end
  | None => None
  end.

(** [user_profile] as built from the user row: all three keys present. *)
Definition profile_of_user (user : User) : user_profile :=
  {| age := Some (u_age user); income := Some (u_income user);
     risk_tolerance := Some (u_risk_tolerance user) |}.

(** The loop over the products; [None] when the scorer or the language
    model raises. *)
Fixpoint recommend_loop {co : Collaborators} (u : user_profile)
  (goal_horizon_months : option Q) (rows : list Product)
  (recommendations : list ProductRecommendation)
  : option (list ProductRecommendation) :=
  match rows with
  | [] => Some recommendations
  | p :: rest =>
      score ← _calculate_match_score p u goal_horizon_months;
      if Qltb 0.5 score then
        text ← generate_recommendation_reasoning p u;
        let recommendation :=
          {| product := p; match_score := score; reasoning := text;
             suitability_factors :=
               _get_suitability_factors p u goal_horizon_months;
             recommended_investment :=
               _calculate_recommended_investment p u |} in
        recommend_loop u goal_horizon_months rest
          (recommendations ++ [recommendation])
      else recommend_loop u goal_horizon_months rest recommendations
  end.

(** [l[:limit]] for an integer limit: a negative limit counts from the end. *)
Definition slice_to {A} (limit : Z) (l : list A) : list A :=
  if (0 <=? limit)%Z then take (Z.to_nat limit) l
  else take (length l - Z.to_nat (- limit)) l.

Definition get_recommendations {co : Collaborators} (db : Database)
  (user_id : Z) (goal_id : option Z) (limit : Z)
  : option (list ProductRecommendation) :=
  match List.find (λ u, bool_decide (u_id u = user_id)) (users db) with
  | None => Some []
  | Some user =>
      let u := profile_of_user user in
      let goal_horizon_months := goal_horizon db user_id goal_id in
      recommendations ← recommend_loop u goal_horizon_months (products db) [];
      Some (slice_to limit (Engine.sorted_desc match_score recommendations))
  end.

(** A recommendation the loop builds for one of the given rows. *)
Definition built_from {co : Collaborators} (u : user_profile) (h : option Q)
  (rows : list Product) (r : ProductRecommendation) : Prop :=
  product r ∈ rows
  ∧ _calculate_match_score (product r) u h = Some (match_score r)
  ∧ (0.5 < match_score r)%Q
  ∧ suitability_factors r = _get_suitability_factors (product r) u h
  ∧ recommended_investment r = _calculate_recommended_investment (product r) u.

(** Sample collaborators and rows. *)
Definition plain_collaborators : Collaborators :=
  {| str_float := λ _, "0.0"%string;
     generate_recommendation_reasoning := λ _ _, Some "Suits your profile."%string |}.

Definition sample_fund : Product :=
  {| name := "Index fund"; product_type := MUTUAL_FUND; risk_level := MEDIUM;
     min_investment := Some 5000; expected_return := Some 11;
     annual_fee := None; rewards_type := None; welcome_bonus := None |}.

Definition sample_database : Database :=
  {| users := [ {| u_id := 1; u_age := Some 28%Z; u_income := Some 80000;
                   u_risk_tolerance := Some "moderate"%string |};
                {| u_id := 2; u_age := None; u_income := Some 60000;
                   u_risk_tolerance := None |} ];
     goals := [ {| g_id := 4; g_user_id := 1;
                   target_date := Some (400 * microseconds_per_day)%Z;
                   created_at := Some (100 * microseconds_per_day)%Z |} ];
     products := [ equity_fund HIGH; sample_fund ] |}.

End Recommendation.

(** ** backend/app/services/alert_service.py *)

Module AlertService.
Import Py.
Local Open Scope Z_scope.

(** Timestamps are microseconds since an epoch. *)
Definition day : Z := 86400000000.

(** [timedelta.days] and the calendar day of a timestamp ([func.date],
    [.date()]): flooring division. *)
Definition days (delta : Z) : Z := delta / day.
Definition date_of (t : Z) : Z := t / day.

Module AlertType.
Inductive t :=
| LOW_BALANCE | MISSED_SIP | GOAL_DEADLINE | BUDGET_EXCEEDED | OPPORTUNITY
| RISK_WARNING | DUE_SOON | PAST_DUE | AUTO_PAY_FAIL.
#[global] Instance alert_type_eq_dec : EqDecision t.
Proof. solve_decision. Defined.
End AlertType.

Module AlertPriority.
Inductive t := LOW | MEDIUM | HIGH | CRITICAL.
End AlertPriority.

Module TransactionType.
Inductive t := INCOME | EXPENSE | INVESTMENT | TRANSFER.
#[global] Instance transaction_type_eq_dec : EqDecision t.
Proof. solve_decision. Defined.
End TransactionType.

Module GoalStatus.
Inductive t := ACTIVE | COMPLETED | PAUSED | CANCELLED.
#[global] Instance goal_status_eq_dec : EqDecision t.
Proof. solve_decision. Defined.
End GoalStatus.

Module ObligationStatus.
Inductive t := ACTIVE | PAUSED | CLOSED.
#[global] Instance obligation_status_eq_dec : EqDecision t.
Proof. solve_decision. Defined.
End ObligationStatus.

(** The columns read or written by the service; nullable columns are
    [option]s. *)
Module Alert.
Record t := {
  user_id : Z;
  alert_type : AlertType.t;
  title : string;
  message : string;
  priority : AlertPriority.t;
  is_read : bool;
  alert_metadata : option string;
  created_at : Z
}.
End Alert.

Module Transaction.
Record t := {
  user_id : Z;
  amount : Q;
  transaction_type : TransactionType.t;
  date : Z
}.
End Transaction.

Module Goal.
Record t := {
  id : Z;
  user_id : Z;
  title : string;
  target_amount : Q;
  current_amount : option Q;
  target_date : Z;
  status : option GoalStatus.t
}.
End Goal.

Module Obligation.
Record t := {
  id : Z;
  user_id : Z;
  title : string;
  amount : Q;
  due_date : option Z;
  next_due_date : option Z;
  status : option ObligationStatus.t
}.
End Obligation.

Module User.
Record t := {
  id : Z;
  income : option Q
}.
End User.

(** The session: the tables, and the alerts added with [db.add] that are not
    committed yet. *)
Record Session := {
  transactions : list Transaction.t;
  goals : list Goal.t;
  obligations : list Obligation.t;
  users : list User.t;
  alerts : list Alert.t;
  pending : list Alert.t
}.

(** What the service takes from the session configuration, the database and
    the formatting of numbers and dates: whether a query flushes pending rows
    first, the [LIKE '%needle%'] test behind [column.contains(needle)], the
    database's [func.now()] when the application clock reads [t], the first
    instant of the month of a timestamp, and the renderings [str(int)],
    [str(float)], [:.1f], [:.2f] and [isoformat()]. *)
Class Backend := {
  autoflush : bool;
  contains : string → string → bool;
  server_now : Z → Z;
  start_of_month : Z → Z;
  str_int : Z → string;
  str_float : Q → string;
  fmt_1f : Q → string;
  fmt_2f : Q → string;
  isoformat : Z → string
}.

Section Service.
Context {backend : Backend}.

(** Rows a query sees. *)
Definition visible (db : Session) : list Alert.t :=
  alerts db ++ (if autoflush then pending db else []).

(** [db.add(alert)] and [db.commit()]. *)
Definition add (alert : Alert.t) (db : Session) : Session :=
  {| transactions := transactions db; goals := goals db;
     obligations := obligations db; users := users db;
     alerts := alerts db; pending := pending db ++ [alert] |}.

Definition commit (db : Session) : Session :=
  {| transactions := transactions db; goals := goals db;
     obligations := obligations db; users := users db;
     alerts := alerts db ++ pending db; pending := [] |}.

(** [Alert(...)]: a new row is unread and stamped by the database. *)
Definition new_alert (now user_id : Z) (alert_type : AlertType.t)
  (title message : string) (priority : AlertPriority.t) (metadata : string)
  : Alert.t :=
  {| Alert.user_id := user_id; Alert.alert_type := alert_type;
     Alert.title := title; Alert.message := message;
     Alert.priority := priority; Alert.is_read := false;
     Alert.alert_metadata := Some metadata;
     Alert.created_at := server_now now |}.

(** [func.sum(Transaction.amount)] over the selected rows ([NULL] when there
    is none) and [... .scalar() or 0]. *)
Definition sum_amount (rows : list Transaction.t) : option Q :=
  match rows with
  | [] => None
  | _ => Some (foldr (λ r acc, Transaction.amount r + acc)%Q 0%Q rows)
  end.

Definition or_0 (x : option Q) : Q :=
  match x with
  | Some q => if truthy q then q else 0%Q
  | None => 0%Q
  end.

(** The double quote, and [f'"key": {id}']. *)
Definition dq : string := String (ascii_of_nat 34) EmptyString.

Definition id_needle (key : string) (id : Z) : string :=
  (dq ++ key ++ dq ++ ": " ++ str_int id)%string.

Definition metadata_contains (a : Alert.t) (needle : string) : bool :=
  match Alert.alert_metadata a with
  | Some m => contains m needle
  | None => false
  end.

(** *** [check_low_balance] *)

Definition balance_of (db : Session) (user_id : Z) : Q :=
  let total_income :=
    or_0 (sum_amount (filter (λ r,
      Transaction.user_id r = user_id
      ∧ Transaction.transaction_type r = TransactionType.INCOME)
      (transactions db))) in
  let total_expenses :=
    or_0 (sum_amount (filter (λ r,
      Transaction.user_id r = user_id
      ∧ Transaction.transaction_type r = TransactionType.EXPENSE)
      (transactions db))) in
  (total_income - total_expenses)%Q.

Definition low_balance_existing (user_id : Z) (a : Alert.t) : bool :=
  bool_decide (Alert.user_id a = user_id)
  && bool_decide (Alert.alert_type a = AlertType.LOW_BALANCE)
  && negb (Alert.is_read a).

Definition low_balance_alert (now user_id : Z) (balance threshold : Q)
  : Alert.t :=
  new_alert now user_id AlertType.LOW_BALANCE "Low Account Balance"
    ("Your account balance (" ++ fmt_2f balance
     ++ ") is below the recommended threshold (" ++ str_float threshold ++ ").")
    AlertPriority.HIGH
    ("{" ++ dq ++ "balance" ++ dq ++ ": " ++ str_float balance ++ ", "
     ++ dq ++ "threshold" ++ dq ++ ": " ++ str_float threshold ++ "}").

Definition check_low_balance (now : Z) (db : Session) (user_id : Z)
  (threshold : Q) : Session * option Alert.t :=
  let balance := balance_of db user_id in
  if Qltb balance threshold then
    if existsb (low_balance_existing user_id) (visible db) then (db, None)
    else
      let alert := low_balance_alert now user_id balance threshold in
      (commit (add alert db), Some alert)
  else (db, None).

(** *** [check_goal_deadlines] *)

Definition goal_in_window (now user_id : Z) (g : Goal.t) : bool :=
  bool_decide (Goal.user_id g = user_id)
  && bool_decide (Goal.status g = Some GoalStatus.ACTIVE)
  && (Goal.target_date g <=? now + 30 * day)
  && (now <=? Goal.target_date g).

Definition goal_existing (user_id : Z) (g : Goal.t) (a : Alert.t) : bool :=
  bool_decide (Alert.user_id a = user_id)
  && bool_decide (Alert.alert_type a = AlertType.GOAL_DEADLINE)
  && metadata_contains a (id_needle "goal_id" (Goal.id g))
  && negb (Alert.is_read a).

(** [(goal.current_amount / goal.target_amount) * 100]: raises on a missing
    current amount and on a zero target. *)
Definition goal_progress (g : Goal.t) : option Q :=
  current ← Goal.current_amount g;
  if truthy (Goal.target_amount g)
  then Some (current / Goal.target_amount g * 100)%Q
  else None.

Definition goal_alert (now user_id : Z) (g : Goal.t) (progress : Q) : Alert.t :=
  let days_remaining := days (Goal.target_date g - now) in
  new_alert now user_id AlertType.GOAL_DEADLINE
    ("Goal Deadline Approaching: " ++ Goal.title g)
    ("Your goal '" ++ Goal.title g ++ "' deadline is in "
     ++ str_int days_remaining ++ " days. Current progress: "
     ++ fmt_1f progress ++ "%")
    (if Qltb 50 progress then AlertPriority.MEDIUM else AlertPriority.HIGH)
    ("{" ++ id_needle "goal_id" (Goal.id g) ++ ", "
     ++ dq ++ "days_remaining" ++ dq ++ ": " ++ str_int days_remaining ++ ", "
     ++ dq ++ "progress" ++ dq ++ ": " ++ str_float progress ++ "}").

(** The loop over the selected goals. *)
Fixpoint goal_loop (now user_id : Z) (selected : list Goal.t) (db : Session)
  (created : list Alert.t) : option (Session * list Alert.t) :=
  match selected with
  | [] => Some (db, created)
  | g :: rest =>
      if existsb (goal_existing user_id g) (visible db)
      then goal_loop now user_id rest db created
      else
        progress ← goal_progress g;
        let alert := goal_alert now user_id g progress in
        goal_loop now user_id rest (add alert db) (created ++ [alert])
  end.

Definition check_goal_deadlines (now : Z) (db : Session) (user_id : Z)
  : option (Session * list Alert.t) :=
  let selected := filter (λ g, Is_true (goal_in_window now user_id g)) (goals db) in
  '(db, created) ← goal_loop now user_id selected db [];
  match created with
  | [] => Some (db, created)
  | _ => Some (commit db, created)
  end.

(** *** [check_obligations_due] *)

(** [obligation.next_due_date or obligation.due_date]. *)
Definition due_of (o : Obligation.t) : option Z :=
  match Obligation.next_due_date o with
  | Some d => Some d
  | None => Obligation.due_date o
  end.

Definition obligation_existing (user_id : Z) (o : Obligation.t) (a : Alert.t)
  : bool :=
  bool_decide (Alert.user_id a = user_id)
  && bool_decide (Alert.alert_type a ∈ [AlertType.DUE_SOON; AlertType.PAST_DUE])
  && metadata_contains a (id_needle "obligation_id" (Obligation.id o))
  && negb (Alert.is_read a).

Definition obligation_alert (now user_id : Z) (o : Obligation.t) (due_date : Z)
  : Alert.t :=
  let is_past_due := due_date <? now in
  let alert_type := if is_past_due then AlertType.PAST_DUE else AlertType.DUE_SOON in
  let days_delta := days (due_date - now) in
  let message :=
    if is_past_due
    then (Obligation.title o ++ " payment of " ++ fmt_2f (Obligation.amount o)
          ++ " is past due.")%string
    else (Obligation.title o ++ " payment of " ++ fmt_2f (Obligation.amount o)
          ++ " is due in " ++ str_int days_delta ++ " days.")%string in
  new_alert now user_id alert_type
    ("Payment Reminder: " ++ Obligation.title o) message
    (if is_past_due then AlertPriority.HIGH else AlertPriority.MEDIUM)
    ("{" ++ id_needle "obligation_id" (Obligation.id o) ++ ", "
     ++ dq ++ "due_date" ++ dq ++ ": " ++ dq ++ isoformat due_date ++ dq ++ "}").

(** The obligation is past due or due within [days_before] days. *)
Definition obligation_due (now days_before : Z) (o : Obligation.t) : option Z :=
  match due_of o with
  | None => None
  | Some due_date =>
      let soon := now + days_before * day in
      let is_past_due := due_date <? now in
      let is_due_soon := (now <=? due_date) && (due_date <=? soon) in
      if negb (is_past_due || is_due_soon) then None else Some due_date
  end.

Fixpoint obligation_loop (now user_id days_before : Z)
  (selected : list Obligation.t) (db : Session) (created : list Alert.t)
  : Session * list Alert.t :=
  match selected with
  | [] => (db, created)
  | o :: rest =>
      match obligation_due now days_before o with
      | None => obligation_loop now user_id days_before rest db created
      | Some due_date =>
          if existsb (obligation_existing user_id o) (visible db)
          then obligation_loop now user_id days_before rest db created
          else
            let alert := obligation_alert now user_id o due_date in
            obligation_loop now user_id days_before rest (add alert db)
              (created ++ [alert])
      end
  end.

Definition check_obligations_due (now : Z) (db : Session) (user_id : Z)
  (days_before : Z) : Session * list Alert.t :=
  let selected :=
    filter (λ o, Obligation.user_id o = user_id
                 ∧ Obligation.status o = Some ObligationStatus.ACTIVE)
      (obligations db) in
  let '(db, created) := obligation_loop now user_id days_before selected db [] in
  match created with
  | [] => (db, created)
  | _ => (commit db, created)
  end.

(** *** [check_budget_exceeded] *)

Definition month_expenses (now : Z) (db : Session) (user_id : Z) : Q :=
  or_0 (sum_amount (filter (λ r,
    Transaction.user_id r = user_id
    ∧ Transaction.transaction_type r = TransactionType.EXPENSE
    ∧ start_of_month now <= Transaction.date r)
    (transactions db))).

Definition budget_existing (now user_id : Z) (a : Alert.t) : bool :=
  bool_decide (Alert.user_id a = user_id)
  && bool_decide (Alert.alert_type a = AlertType.BUDGET_EXCEEDED)
  && negb (Alert.is_read a)
  && (date_of (start_of_month now) <=? date_of (Alert.created_at a)).

Definition budget_alert (now user_id : Z) (total_expenses estimated_budget : Q)
  : Alert.t :=
  new_alert now user_id AlertType.BUDGET_EXCEEDED "Monthly Budget Exceeded"
    ("You have exceeded your estimated monthly budget. Expenses: "
     ++ fmt_2f total_expenses ++ ", Budget: " ++ fmt_2f estimated_budget)
    AlertPriority.HIGH
    ("{" ++ dq ++ "expenses" ++ dq ++ ": " ++ str_float total_expenses ++ ", "
     ++ dq ++ "budget" ++ dq ++ ": " ++ str_float estimated_budget ++ "}").

Definition check_budget_exceeded (now : Z) (db : Session) (user_id : Z)
  : Session * option Alert.t :=
  let total_expenses := month_expenses now db user_id in
  match List.find (λ u, bool_decide (User.id u = user_id)) (users db) with
  | Some user =>
      match User.income user with
      | Some income =>
          if truthy income then
            let estimated_budget := (income * 0.8)%Q in
            if Qltb estimated_budget total_expenses then
              if existsb (budget_existing now user_id) (visible db) then (db, None)
              else
                let alert :=
                  budget_alert now user_id total_expenses estimated_budget in
                (commit (add alert db), Some alert)
            else (db, None)
          else (db, None)
      | None => (db, None)
      end
  | None => (db, None)
  end.

(** The condition under which the budget alert is due, with the month's
    expenses and the estimated budget. *)
Definition budget_due (now : Z) (db : Session) (user_id : Z) : option (Q * Q) :=
  match List.find (λ u, bool_decide (User.id u = user_id)) (users db) with
  | Some user =>
      match User.income user with
      | Some income =>
          if truthy income
             && Qltb (income * 0.8)%Q (month_expenses now db user_id)
          then Some (month_expenses now db user_id, (income * 0.8)%Q)
          else None
      | None => None
      end
  | None => None
  end.

(** *** [generate_all_alerts] *)

Definition generate_all_alerts (now : Z) (db : Session) (user_id : Z)
  : option (Session * list Alert.t) :=
  let alerts := [] in
  let '(db, low_balance_alert) := check_low_balance now db user_id 10000 in
  let alerts :=
    match low_balance_alert with
    | Some a => alerts ++ [a]
    | None => alerts
    end in
  '(db, goal_alerts) ← check_goal_deadlines now db user_id;
  let alerts := alerts ++ goal_alerts in
  let '(db, obligation_alerts) := check_obligations_due now db user_id 5 in
  let alerts := alerts ++ obligation_alerts in
  let '(db, budget_alert) := check_budget_exceeded now db user_id in
  let alerts :=
    match budget_alert with
    | Some a => alerts ++ [a]
    | None => alerts
    end in
  Some (db, alerts).

End Service.



(** Literal substring test, the plainest reading of [contains]. *)
Fixpoint substring_of (haystack needle : string) : bool :=
  String.prefix needle haystack
  || match haystack with
     | EmptyString => false
     | String _ rest => substring_of rest needle
     end.

(** A sample back end: no autoflush, literal substring search, the database
    on the application's clock, months of thirty days, plain renderings. *)
Definition sample_backend : Backend :=
  {| autoflush := false;
     contains := substring_of;
     server_now := λ t, t;
     start_of_month := λ t, t - t mod (30 * day);
     str_int := λ n, NilZero.string_of_int (Z.to_int n);
     str_float := λ _, "0.0"%string;
     fmt_1f := λ _, "0.0"%string;
     fmt_2f := λ _, "0.00"%string;
     isoformat := λ _, "2026-01-01T00:00:00"%string |}.

(** A sample database, read at day 105: user 1 has an income of 50000, a
    balance of 2000 after 48000 of expenses this month, a goal due in ten days,
    an obligation due in two days, and no alert yet. *)
Definition sample_db : Session :=
  {| transactions :=
       [ {| Transaction.user_id := 1; Transaction.amount := 50000%Q;
            Transaction.transaction_type := TransactionType.INCOME;
            Transaction.date := 100 * day |};
         {| Transaction.user_id := 1; Transaction.amount := 48000%Q;
            Transaction.transaction_type := TransactionType.EXPENSE;
            Transaction.date := 101 * day |} ];
     goals :=
       [ {| Goal.id := 7; Goal.user_id := 1; Goal.title := "Car";
            Goal.target_amount := 1000000%Q; Goal.current_amount := Some 250000%Q;
            Goal.target_date := 115 * day;
            Goal.status := Some GoalStatus.ACTIVE |} ];
     obligations :=
       [ {| Obligation.id := 7; Obligation.user_id := 1;
            Obligation.title := "Card bill"; Obligation.amount := 12000%Q;
            Obligation.due_date := Some (107 * day);
            Obligation.next_due_date := None;
            Obligation.status := Some ObligationStatus.ACTIVE |} ];
     users := [ {| User.id := 1; User.income := Some 50000%Q |} ];
     alerts := [];
     pending := [] |}.

(** The sample database after a low-balance check at day 105 with threshold
    5000: it holds one unread low-balance alert. *)
Definition alerted_db : Session :=
  fst (@check_low_balance sample_backend (105 * day) sample_db 1 5000).

(** A goal with a zero target, due in ten days at day 105, and the sample
    database with this goal in place of its own. *)
Definition zero_target_goal : Goal.t :=
  {| Goal.id := 8; Goal.user_id := 1; Goal.title := "Draft";
     Goal.target_amount := 0%Q; Goal.current_amount := Some 0%Q;
     Goal.target_date := 115 * day;
     Goal.status := Some GoalStatus.ACTIVE |}.

Definition zero_target_db : Session :=
  {| transactions := transactions sample_db; goals := [zero_target_goal];
     obligations := obligations sample_db; users := users sample_db;
     alerts := []; pending := [] |}.

(** *** [get_alerts] and [mark_alert_read] *)

(** [get_alerts]: the user's alerts, optionally by read flag, newest first,
    at most [limit] of them.  (The database leaves the order of rows with the
    same timestamp open; here they keep their table order.) *)
Definition get_alerts {backend : Backend} (db : Session) (user_id : Z)
  (is_read : option bool) (limit : nat) : list Alert.t :=
  let query := filter (λ a, Alert.user_id a = user_id) (visible db) in
  let query :=
    match is_read with
    | Some flag => filter (λ a, Alert.is_read a = flag) query
    | None => query
    end in
  take limit (Engine.sorted_desc (λ a, inject_Z (Alert.created_at a)) query).

Definition set_read (a : Alert.t) : Alert.t :=
  {| Alert.user_id := Alert.user_id a; Alert.alert_type := Alert.alert_type a;
     Alert.title := Alert.title a; Alert.message := Alert.message a;
     Alert.priority := Alert.priority a; Alert.is_read := true;
     Alert.alert_metadata := Alert.alert_metadata a;
     Alert.created_at := Alert.created_at a |}.

(** [mark_alert_read].  The primary key of an alert is its position in the
    table. *)
Definition mark_alert_read (db : Session) (alert_id : nat) (user_id : Z)
  : Session * bool :=
  match alerts db !! alert_id with
  | Some alert =>
      if bool_decide (Alert.user_id alert = user_id) then
        (commit {| transactions := transactions db; goals := goals db;
                   obligations := obligations db; users := users db;
                   alerts := <[alert_id := set_read alert]> (alerts db);
                   pending := pending db |},
         true)
      else (db, false)
  | None => (db, false)
  end.

(** [db'] has the tables of [db], nothing pending, and its alerts followed
    by [new]. *)
Definition extended_by (db db' : Session) (new : list Alert.t) : Prop :=
  transactions db' = transactions db ∧ goals db' = goals db ∧
  obligations db' = obligations db ∧ users db' = users db ∧
  pending db' = [] ∧ alerts db' = alerts db ++ new.

(** A row as [generate_all_alerts] creates it at [now] for [user_id]. *)
Definition fresh {backend : Backend} (now user_id : Z) (a : Alert.t) : Prop :=
  Alert.user_id a = user_id ∧ Alert.is_read a = false
  ∧ Alert.created_at a = server_now now.

End AlertService.

(** ** streamlit_app.py: from the goal plans to the cash-flow summary *)

Module Dashboard.
Import Py Engine.
Local Open Scope Q_scope.

(** [sum(plan.monthly_investment for plan in plans)]. *)
Definition recommended_sip (plans : list GoalPlan) : Q :=
  fold_left (λ acc plan, acc + monthly_investment plan) plans 0.

(** [sum(plan.years for plan in plans) / len(plans) if plans else 5]. *)
Definition avg_goal_horizon (plans : list GoalPlan) : Q :=
  match plans with
  | [] => 5
  | _ => fold_left (λ acc plan, acc + years plan) plans 0
         / inject_Z (Z.of_nat (length plans))
  end.

(** The summary shown for a list of goals: the plans' contributions are the
    recommended SIP of [summarize_cash_flow]. *)
Definition cash_summary_for {env : PlannerEnv} (goals : list goal)
  (risk_score : py_num)
  (monthly_income monthly_expense existing_sips emi cash_reserve : Q)
  : option cash_summary :=
  plans ← build_goal_plans goals risk_score;
  Some (summarize_cash_flow monthly_income monthly_expense existing_sips emi
          (recommended_sip plans) cash_reserve).


End Dashboard.

(** * Properties *)

Section EngineFacts.
Import Py Engine.
Local Open Scope Q_scope.
Context {env : PlannerEnv}.

(** *** Arithmetic of the SIP formula *)

Lemma max_lower_bound a b : b <= max a b.
Proof. unfold max. destruct (Qlt_le_dec a b); lra. Qed.


Lemma max_Qmax a b : max a b == Qmax a b.
Proof.
  unfold max. destruct (Qlt_le_dec a b) as [H|H].
  - symmetry. apply Q.max_r. lra.
  - symmetry. apply Q.max_l. lra.
Qed.

Lemma monthly_rate_pos a : 0 < max (a / 12) 0.0001.
Proof. pose proof (max_lower_bound (a / 12) 0.0001). lra. Qed.

Lemma sip_months_pos y : (1 <= sip_months y)%Z.
Proof. unfold sip_months. lia. Qed.


Lemma Qpower_succ x (n : nat) : x ^ Z.of_nat (S n) == x * x ^ Z.of_nat n.
Proof.
  rewrite Nat2Z.inj_succ. unfold Z.succ.
  rewrite Qpower_plus' by lia. rewrite Qpower_1_r. ring.
Qed.

Lemma pow_geom x (n : nat) : x ^ Z.of_nat n - 1 == (x - 1) * geom x n.
Proof.
  induction n as [|n IH].
  - simpl. ring.
  - rewrite Qpower_succ. cbn [geom].
    assert (E : x * x ^ Z.of_nat n - 1 == x * (x ^ Z.of_nat n - 1) + (x - 1))
      by ring.
    rewrite E, IH. ring.
Qed.

Lemma geom_mono x y n : 0 <= x → x <= y → 0 <= geom x n ∧ geom x n <= geom y n.
Proof.
  intros Hx Hxy. induction n as [|n [IH0 IH]]; cbn [geom].
  - split; lra.
  - assert (x * geom x n <= y * geom y n).
    { apply Qmult_le_compat_nonneg; split; lra. }
    assert (0 <= x * geom x n) by (apply Qmult_le_0_compat; lra).
    split; lra.
Qed.

Lemma geom_ge_1 x n : 0 <= x → (0 < n)%nat → 1 <= geom x n.
Proof.
  intros Hx Hn. destruct n as [|n]; [lia|]. cbn [geom].
  destruct (geom_mono x x n Hx (Qle_refl x)) as [H0 _].
  assert (0 <= x * geom x n) by (apply Qmult_le_0_compat; lra). lra.
Qed.

(** The contribution is the target divided by the annuity factor. *)
Lemma contribution_geom t r (n : nat) :
  0 < r → (0 < n)%nat →
  t * r / ((1 + r) ^ Z.of_nat n - 1) == t / geom (1 + r) n.
Proof.
  intros Hr Hn. rewrite pow_geom.
  pose proof (geom_ge_1 (1 + r) n ltac:(lra) Hn).
  field. split; lra.
Qed.


(** *** The rate table *)




(** *** One goal through the planner *)

(** The sample goal at risk score 3: 96 months, a contribution of 10,035 a
    month (rounded down). *)
Example education_plan_contribution :
  sip_months 8 = 96%Z ∧ Qfloor (fst (_sip_required 1500000 8 0.105)) = 10035%Z.
Proof. split; vm_compute; reflexivity. Qed.


Lemma plan_goal_some rs rate g t y :
  float (default (PyInt 0) (g_target_amount g)) = Some t →
  float (default (PyInt 1) (g_years g)) = Some y →
  ∃ p, plan_goal rs rate g = Some p ∧
       name p = default "Goal"%string (g_goal g) ∧
       target_amount p = t ∧ years p = y ∧
       monthly_investment p = fst (_sip_required t y rate) ∧
       projected_value p = snd (_sip_required t y rate).
Proof.
  intros Ht Hy. unfold plan_goal. rewrite Ht, Hy. cbn [mbind option_bind].
  unfold _sip_required. eexists. split; [reflexivity|]. cbn. tauto.
Qed.



(** *** The number of months *)

Lemma trunc_floor_max x : Z.max (trunc x) 1 = Z.max (Qfloor x) 1.
Proof.
  destruct x as [n d]. unfold trunc, Qfloor. cbn [Qnum Qden].
  destruct (Z_lt_le_dec n 0) as [Hneg|Hpos].
  - assert (n ÷ Z.pos d <= 0)%Z by (apply Z.quot_le_upper_bound; lia).
    assert (n / Z.pos d < 0)%Z by (apply Z.div_lt_upper_bound; lia).
    lia.
  - rewrite Z.quot_div_nonneg by lia. reflexivity.
Qed.



(** *** The rate model on arbitrary inputs *)

(** C4 (as amended). Integer scores 1..5 get the table value and every other
    integer score the default 0.10; a float score is truncated toward zero and
    then looked up like an integer; a missing score ([None]) raises. *)
Theorem annual_return_lookup :
  _annual_return_from_risk (PyInt 1) = Some 0.065 ∧
  _annual_return_from_risk (PyInt 2) = Some 0.08 ∧
  _annual_return_from_risk (PyInt 3) = Some 0.105 ∧
  _annual_return_from_risk (PyInt 4) = Some 0.12 ∧
  _annual_return_from_risk (PyInt 5) = Some 0.145 ∧
  (∀ n : Z, ¬ (1 <= n <= 5)%Z → _annual_return_from_risk (PyInt n) = Some 0.1) ∧
  (∀ x : Q, _annual_return_from_risk (PyFloat x)
            = _annual_return_from_risk (PyInt (trunc x))) ∧
  _annual_return_from_risk PyNone = None.
Proof.
  repeat (split; [reflexivity|]). split; [|split; reflexivity].
  intros n Hn. unfold _annual_return_from_risk. cbn [int mbind option_bind].
  destruct n as [|[[[]|[]|]|[[]|[]|]|]|]; try reflexivity; lia.
Qed.

(** C4, counterexample. A missing score raises instead of returning the
    default, and the non-integer score 5.5, which lies outside 1..5, gets the
    table value of 5 instead of the default. *)
Lemma annual_return_not_default :
  _annual_return_from_risk PyNone = None ∧
  ∃ a, _annual_return_from_risk (PyFloat 5.5) = Some a ∧ ¬ a == 0.1.
Proof. split; [reflexivity|]. eexists. split; [reflexivity|]. discriminate. Qed.

(** *** Cash flow *)

Lemma truthy_pos x : 0 < x → truthy x = true.
Proof.
  intros H. unfold truthy. destruct (Qeq_bool x 0) eqn:E; [|reflexivity].
  apply Qeq_bool_iff in E. lra.
Qed.

Lemma truthy_zero x : x == 0 → truthy x = false.
Proof.
  intros H. unfold truthy. apply Qeq_bool_iff in H. rewrite H. reflexivity.
Qed.

(** C6. On non-negative inputs [summarize_cash_flow] returns the surplus
    [income - (expense + existing + recommended + debt)], the runway
    [cash_reserve / burn] when the burn [expense + debt] is positive and
    infinity when it is zero, and the savings rate
    [max((income - expense) / income, 0)] when income is positive and 0 when
    it is zero. *)
Theorem summarize_cash_flow_formulas
  (income expense existing_sips emi recommended cash_reserve : Q) :
  0 <= income → 0 <= expense → 0 <= existing_sips → 0 <= emi →
  0 <= recommended → 0 <= cash_reserve →
  let s := summarize_cash_flow income expense existing_sips emi recommended
             cash_reserve in
  surplus s == income - (expense + existing_sips + recommended + emi) ∧
  runway_months s =
    (if Qlt_le_dec 0 (expense + emi)
     then Months (cash_reserve / (expense + emi)) else Inf) ∧
  savings_rate s ==
    (if Qlt_le_dec 0 income then Qmax ((income - expense) / income) 0 else 0).
Proof.
  intros Hi He _ Hd _ _ s. subst s. unfold summarize_cash_flow.
  cbn [surplus runway_months savings_rate].
  split; [reflexivity|]. split.
  - destruct (Qlt_le_dec 0 (expense + emi)) as [H|H].
    + rewrite (truthy_pos _ H). reflexivity.
    + rewrite truthy_zero by lra. reflexivity.
  - destruct (Qlt_le_dec 0 income) as [H|H].
    + rewrite (truthy_pos _ H). apply max_Qmax.
    + rewrite truthy_zero by lra. reflexivity.
Qed.

(** *** Predictive alerts *)

Lemma Qltb_true a b : Qltb a b = true ↔ a < b.
Proof. unfold Qltb. destruct (Qlt_le_dec a b); split; (discriminate || lra || auto). Qed.

Lemma Qltb_false a b : Qltb a b = false ↔ b <= a.
Proof. unfold Qltb. destruct (Qlt_le_dec a b); split; (discriminate || lra || auto). Qed.

Lemma runway_below_false r b : runway_below r b = false ↔ runway_at_least r b.
Proof. destruct r; cbn; [apply Qltb_false | tauto]. Qed.

Lemma runway_below_true r b : runway_below r b = true → ¬ runway_at_least r b.
Proof.
  intros H Hge. apply runway_below_false in Hge. congruence.
Qed.

Lemma healthy_not_deficit : healthy_msg ≠ deficit_msg.
Proof. discriminate. Qed.
Lemma healthy_not_thin : healthy_msg ≠ thin_surplus_msg.
Proof. discriminate. Qed.
Lemma healthy_not_low_reserve r : healthy_msg ≠ low_reserve_msg r.
Proof. discriminate. Qed.
Lemma healthy_not_low_savings : healthy_msg ≠ low_savings_msg.
Proof. discriminate. Qed.

(** C5. [predictive_alerts] returns exactly the healthy message if and only if
    surplus >= 5000, runway >= 3 and savings rate >= 0.20 hold together, and
    in every other case the healthy message is not in the output. *)
Theorem healthy_alert_exclusive (cs : cash_summary) :
  let healthy :=
    5000 <= surplus cs ∧ runway_at_least (runway_months cs) 3 ∧
    0.2 <= savings_rate cs in
  (predictive_alerts cs = [healthy_msg] ↔ healthy) ∧
  (healthy_msg ∈ predictive_alerts cs ↔ healthy).
Proof.
  pose proof healthy_not_deficit. pose proof healthy_not_thin.
  pose proof (healthy_not_low_reserve (runway_months cs)).
  pose proof healthy_not_low_savings.
  unfold predictive_alerts.
  destruct (Qltb (surplus cs) 0) eqn:E0;
    [apply Qltb_true in E0 | apply Qltb_false in E0];
    (destruct (Qltb (surplus cs) 5000) eqn:E1;
      [apply Qltb_true in E1 | apply Qltb_false in E1]);
    (destruct (runway_below (runway_months cs) 3) eqn:E2;
      [apply runway_below_true in E2 | apply runway_below_false in E2]);
    (destruct (Qltb (savings_rate cs) 0.2) eqn:E3;
      [apply Qltb_true in E3 | apply Qltb_false in E3]);
    cbn [app]; cbv zeta;
    (split; split;
      [ intros Heq; try (exfalso; injection Heq; congruence);
        try (exfalso; discriminate Heq)
      | intros (Hs & Hr & Hv)
      | intros Hin; rewrite ?elem_of_cons, elem_of_nil in Hin
      | intros (Hs & Hr & Hv) ]);
    try (exfalso; lra); try (exfalso; tauto); try (exfalso; intuition congruence);
    try reflexivity; try (apply list_elem_of_singleton; reflexivity);
    try (repeat split; assumption).
Qed.

(** *** Credit-card scoring *)





End EngineFacts.

Section RecommendationFacts.
Import Py Recommendation.
Local Open Scope Q_scope.

Lemma min_spec a b : min a b <= a ∧ min a b <= b ∧ (min a b == a ∨ min a b == b).
Proof. unfold min. destruct (Qlt_le_dec b a); repeat split; (lra || auto with qarith). Qed.

(** Each rule either raises for every running score or adds a fixed
    non-negative bonus to it. *)
Lemma risk_step_shape p u :
  (user_risk u = None ∧ ∀ x, risk_step p u x = None) ∨
  (is_Some (user_risk u) ∧
   ∃ b, 0 <= b ∧ ∀ x, ∃ y, risk_step p u x = Some y ∧ y == x + b).
Proof.
  unfold risk_step. destruct (user_risk u) as [ur|] eqn:E.
  - right. split; [eauto|].
    destruct (bool_decide (Some (risk_level p) = Some ur)).
    + exists 0.3. split; [lra|]. intros x. eexists. split; [reflexivity|lra].
    + destruct (risk_level p), ur; cbn;
        ((exists 0.15; split; [lra|]; intros x; eexists; split;
           [reflexivity|lra])
         || (exists 0; split; [lra|]; intros x; eexists; split;
              [reflexivity|lra])).
  - left. split; [reflexivity|]. intros x.
    rewrite bool_decide_eq_false_2 by discriminate.
    destruct (risk_level p); reflexivity.
Qed.

Lemma age_step_shape p u :
  (get_age u = None ∧ ∀ x, age_step p u x = None) ∨
  (is_Some (get_age u) ∧
   ∃ b, 0 <= b ∧ ∀ x, ∃ y, age_step p u x = Some y ∧ y == x + b).
Proof.
  unfold age_step. destruct (get_age u) as [a|].
  - right. split; [eauto|]. cbn [mbind option_bind].
    destruct ((a <? 30)%Z && _).
    + exists 0.1. split; [lra|]. intros x. eexists. split; [reflexivity|lra].
    + destruct ((50 <? a)%Z && _).
      * exists 0.1. split; [lra|]. intros x. eexists. split; [reflexivity|lra].
      * exists 0. split; [lra|]. intros x. eexists. split; [reflexivity|lra].
  - left. split; [reflexivity|]. reflexivity.
Qed.

Lemma income_step_shape p u : ∃ b, 0 <= b ∧ ∀ x, income_step p u x == x + b.
Proof.
  unfold income_step. destruct (get_income u) as [inc|].
  - destruct (truthy inc).
    + destruct (_ && _).
      * exists 0.1. split; [lra|]. intros; lra.
      * destruct (negb _).
        -- exists 0.1. split; [lra|]. intros; lra.
        -- exists 0. split; [lra|]. intros; lra.
    + exists 0. split; [lra|]. intros; lra.
  - exists 0. split; [lra|]. intros; lra.
Qed.

Lemma horizon_step_shape p h : ∃ b, 0 <= b ∧ ∀ x, horizon_step p h x == x + b.
Proof.
  unfold horizon_step. destruct h as [h|].
  - destruct (truthy h).
    + destruct (Qle_bool h 12); destruct (is_in _ _);
        ((exists 0.1; split; [lra|]; intros; lra)
         || (exists 0; split; [lra|]; intros; lra)).
    + exists 0. split; [lra|]. intros; lra.
  - exists 0. split; [lra|]. intros; lra.
Qed.

Lemma card_step_shape p u : ∃ b, 0 <= b ∧ ∀ x, card_step p u x == x + b.
Proof.
  unfold card_step. destruct (bool_decide _).
  - destruct (get_income u) as [inc|], (annual_fee p) as [fee|];
      try destruct (_ && _); destruct (truthy_str _);
      ((exists 0.1; split; [lra|]; intros; lra)
       || (exists 0.05; split; [lra|]; intros; lra)
       || (exists 0; split; [lra|]; intros; lra)).
  - exists 0. split; [lra|]. intros; lra.
Qed.

(** The score before clamping is the base 0.5 plus the earned bonus. *)
Lemma match_score_decomposition p u h :
  (_calculate_match_score p u h = None ∧ earned_bonus p u h = None ∧
   (user_risk u = None ∨ get_age u = None)) ∨
  (is_Some (user_risk u) ∧ is_Some (get_age u) ∧
   ∃ s b, _calculate_match_score p u h = Some s ∧
          earned_bonus p u h = Some b ∧
          0 <= b ∧ s == min (0.5 + b) 1).
Proof.
  unfold _calculate_match_score, earned_bonus. cbv zeta.
  destruct (risk_step_shape p u) as [[Hu Hr]|(Hu & b1 & Hb1 & Hr)].
  { left. rewrite !Hr. auto. }
  destruct (Hr 0.5) as (y1 & -> & Hy1). destruct (Hr 0) as (z1 & -> & Hz1).
  cbn [mbind option_bind].
  destruct (income_step_shape p u) as (b2 & Hb2 & Hi).
  destruct (age_step_shape p u) as [[Ha Hg]|(Ha & b3 & Hb3 & Hg)].
  { left. rewrite !Hg. auto. }
  destruct (Hg (income_step p u y1)) as (y3 & -> & Hy3).
  destruct (Hg (income_step p u z1)) as (z3 & -> & Hz3).
  cbn [mbind option_bind].
  destruct (horizon_step_shape p h) as (b4 & Hb4 & Hh).
  destruct (card_step_shape p u) as (b5 & Hb5 & Hc).
  right. split; [assumption|]. split; [assumption|].
  eexists _, _. split; [reflexivity|]. split; [reflexivity|].
  pose proof (Hi y1). pose proof (Hi z1).
  pose proof (Hh y3). pose proof (Hh z3).
  pose proof (Hc (horizon_step p h y3)) as Hs.
  pose proof (Hc (horizon_step p h z3)) as Hb.
  split; [lra|].
  assert (E : card_step p u (horizon_step p h y3)
              == 0.5 + card_step p u (horizon_step p h z3)) by lra.
  unfold min. repeat destruct (Qlt_le_dec _ _); lra.
Qed.

(** C10. Whenever [_calculate_match_score] returns a score, it lies in
    [0.5, 1.0]: it is the base 0.5 plus a non-negative sum of bonuses, clamped
    at 1.0, and the cutoff [match_score > 0.5] rejects exactly the products
    whose bonus sum is zero.  A score is returned exactly for the profiles
    with a recognised risk tolerance and an age. *)
Theorem match_score_range (p : Product) (u : user_profile) (h : option Q) :
  (is_Some (_calculate_match_score p u h)
   ↔ is_Some (user_risk u) ∧ is_Some (get_age u)) ∧
  (∀ s, _calculate_match_score p u h = Some s →
        0.5 <= s ∧ s <= 1 ∧
        ∃ b, earned_bonus p u h = Some b ∧ 0 <= b ∧
             (recommended s = false ↔ b == 0)).
Proof.
  destruct (match_score_decomposition p u h)
    as [(Hn & _ & Hwhy)|(Hu & Ha & s & b & Hs & Hb & Hpos & Heq)].
  - rewrite Hn. split.
    + split; [intros [? ?]; discriminate|].
      intros [[? Hu] [? Ha]]. destruct Hwhy; congruence.
    + intros s; discriminate.
  - rewrite Hs. split; [split; eauto|].
    intros s' [= <-].
    assert (Hm : 0.5 <= s ∧ s <= 1 ∧ (0.5 < s ↔ 0 < b)).
    { revert Heq. unfold min. destruct (Qlt_le_dec _ _); intros; repeat split; lra. }
    destruct Hm as (Hlo & Hhi & Hcut).
    split; [assumption|]. split; [assumption|].
    exists b. split; [assumption|]. split; [assumption|].
    unfold recommended. split.
    + intros Hf. apply Qltb_false in Hf. destruct (Qlt_le_dec 0 b); [|lra].
      apply Hcut in q. lra.
    + intros Hz. apply Qltb_false. destruct (Qlt_le_dec 0.5 s) as [Hgt|]; [|lra].
      apply Hcut in Hgt. lra.
Qed.

(** C7, at the failing input. A high-risk product for a moderate (medium)
    user, one tier apart, earns no adjacency bonus: the score stays at the
    base 0.5, while the low/medium pair earns 0.15. *)
Theorem medium_high_pair_earns_no_bonus :
  _calculate_match_score (equity_fund HIGH) (profile_of "moderate") None
    = Some 0.5 ∧
  _calculate_match_score (equity_fund MEDIUM) (profile_of "aggressive") None
    = Some 0.5 ∧
  ∃ s, _calculate_match_score (equity_fund LOW) (profile_of "moderate") None
         = Some s ∧ s == 0.65.
Proof.
  split; [reflexivity|]. split; [reflexivity|].
  eexists. split; reflexivity.
Qed.

End RecommendationFacts.

Section AlertFacts.
Import Py AlertService.
Local Open Scope Z_scope.
Context {backend : Backend}.

(** A row whose metadata literally contains the needle is found by
    [contains], whatever else the [LIKE] pattern matches. *)
Hypothesis contains_infix :
  ∀ pre needle post : string,
    contains (pre ++ needle ++ post)%string needle = true.

(** The database stamps a row created at [t] with a day of the month of
    [t], as the application reckons it, or a later one. *)
Hypothesis stamp_in_month :
  ∀ t, date_of (start_of_month t) <= date_of (server_now t).









(** *** Low balance *)




(** *** Goal deadlines *)





(** *** Obligations *)





(** *** Monthly budget *)


Lemma month_expenses_ext now db db' uid :
  transactions db' = transactions db →
  month_expenses now db' uid = month_expenses now db uid.
Proof. intros H. unfold month_expenses. rewrite H. reflexivity. Qed.

Lemma check_budget_exceeded_due now db uid :
  check_budget_exceeded now db uid =
  match budget_due now db uid with
  | Some (total, budget) =>
      if existsb (budget_existing now uid) (visible db) then (db, None)
      else (commit (add (budget_alert now uid total budget) db),
            Some (budget_alert now uid total budget))
  | None => (db, None)
  end.
Proof.
  unfold check_budget_exceeded, budget_due. cbv zeta.
  destruct (List.find _ _) as [user|]; [|reflexivity].
  destruct (User.income user) as [income|]; [|reflexivity].
  destruct (truthy income); [|reflexivity].
  destruct (Qltb _ _); reflexivity.
Qed.





(** *** The whole generator *)


End AlertFacts.

(** *** Instances *)








(** C4 on the integer score 7, outside the table. *)
Lemma annual_return_lookup_witness :
  Engine._annual_return_from_risk (Py.PyInt 7) = Some 0.1%Q.
Proof.
  destruct annual_return_lookup as (_ & _ & _ & _ & _ & Hdefault & _).
  apply Hdefault. lia.
Defined.

(** C6 on the default client snapshot. *)
Lemma summarize_cash_flow_formulas_witness :
  let s := Engine.summarize_cash_flow 120000 65000 10000 18000 25000 250000 in
  (Engine.surplus s == 120000 - (65000 + 10000 + 25000 + 18000))%Q ∧
  Engine.runway_months s =
    (if Qlt_le_dec 0 (65000 + 18000)
     then Engine.Months (250000 / (65000 + 18000)) else Engine.Inf) ∧
  (Engine.savings_rate s ==
    (if Qlt_le_dec 0 120000 then Qmax ((120000 - 65000) / 120000) 0 else 0))%Q.
Proof.
  apply (summarize_cash_flow_formulas 120000 65000 10000 18000 25000 250000);
    discriminate.
Defined.

(** C10 on a low-risk product for a moderate user. *)
Lemma match_score_range_witness :
  ∃ s, Recommendation._calculate_match_score
         (Recommendation.equity_fund Recommendation.LOW)
         (Recommendation.profile_of "moderate") None = Some s ∧
       (0.5 <= s)%Q ∧ (s <= 1)%Q.
Proof.
  eexists. split; [reflexivity|].
  destruct (proj2 (match_score_range
                     (Recommendation.equity_fund Recommendation.LOW)
                     (Recommendation.profile_of "moderate") None) _ eq_refl)
    as (Hlo & Hhi & _).
  split; assumption.
Defined.

(** * Further properties of the planning engine *)

Section PlannerFacts.
Import Py Engine.
Local Open Scope Q_scope.
Context {env : PlannerEnv}.

Lemma geom_step x (n : nat) : 1 <= x → geom x n <= geom x (S n).
Proof.
  intros Hx. cbn [geom].
  destruct (geom_mono x x n ltac:(lra) (Qle_refl x)) as [H0 _].
  assert (H : 0 <= (x - 1) * geom x n) by (apply Qmult_le_0_compat; lra).
  assert (E : x * geom x n == geom x n + (x - 1) * geom x n) by ring.
  rewrite E. lra.
Qed.

Lemma geom_le x (n m : nat) : 1 <= x → (n <= m)%nat → geom x n <= geom x m.
Proof.
  intros Hx Hnm. induction Hnm as [|m Hnm IH]; [lra|].
  pose proof (geom_step x m Hx). lra.
Qed.


(** *** The size of the contribution *)

Lemma sip_months_unfold_floor y : sip_months y = Z.max (Qfloor (y * 12)) 1.
Proof. unfold sip_months. apply trunc_floor_max. Qed.

Lemma sip_contribution_geom t y a :
  fst (_sip_required t y a)
  == t / geom (1 + max (a / 12) 0.0001) (Z.to_nat (sip_months y)).
Proof.
  unfold _sip_required. cbn [fst].
  pose proof (sip_months_pos y) as Hm. pose proof (monthly_rate_pos a) as Hr.
  rewrite <- (Z2Nat.id (sip_months y)) at 1 by lia.
  apply contribution_geom; [exact Hr|lia].
Qed.

Lemma sip_months_mono y1 y2 : y1 <= y2 → (sip_months y1 <= sip_months y2)%Z.
Proof.
  intros H. rewrite !sip_months_unfold_floor.
  assert (Qfloor (y1 * 12) <= Qfloor (y2 * 12))%Z by (apply Qfloor_resp_le; lra).
  lia.
Qed.

Lemma contributions_nonneg (t y a : Q) :
  0 <= t → 0 <= fst (_sip_required t y a).
Proof.
  intros Ht. rewrite sip_contribution_geom.
  pose proof (sip_months_pos y) as Hm. pose proof (monthly_rate_pos a) as Hr.
  assert (Hn : (0 < Z.to_nat (sip_months y))%nat) by lia.
  pose proof (geom_ge_1 (1 + max (a / 12) 0.0001) _ ltac:(lra) Hn) as H1.
  apply Qle_shift_div_l; lra.
Qed.


(** X2. For a non-negative target, a longer horizon never needs a larger
    monthly contribution. *)
Theorem contribution_antitone_in_horizon (t y1 y2 a : Q) :
  0 <= t → y1 <= y2 →
  fst (_sip_required t y2 a) <= fst (_sip_required t y1 a).
Proof.
  intros Ht Hy. rewrite !sip_contribution_geom.
  pose proof (sip_months_pos y1) as Hm1. pose proof (sip_months_mono _ _ Hy) as Hm.
  pose proof (monthly_rate_pos a) as Hr.
  set (r := max (a / 12) 0.0001) in *.
  set (n1 := Z.to_nat (sip_months y1)). set (n2 := Z.to_nat (sip_months y2)).
  assert (Hn1 : (0 < n1)%nat) by (subst n1; lia).
  assert (Hn : (n1 <= n2)%nat) by (subst n1 n2; lia).
  pose proof (geom_ge_1 (1 + r) n1 ltac:(lra) Hn1) as H1.
  pose proof (geom_le (1 + r) n1 n2 ltac:(lra) Hn) as Hle.
  apply Qle_shift_div_r; [lra|].
  assert (Hq : 0 <= t / geom (1 + r) n1) by (apply Qle_shift_div_l; lra).
  assert (E : t == t / geom (1 + r) n1 * geom (1 + r) n1) by (field; lra).
  rewrite E at 1. apply Qmult_le_compat_nonneg; split; lra.
Qed.


(** X4. An assumed annual return below 0.12% (zero and negative returns
    included) is floored: the plan is the one for a monthly rate of 0.01%,
    the same as for a zero return. *)
Theorem low_return_floored (t y a : Q) :
  a < 0.0012 → _sip_required t y a = _sip_required t y 0.
Proof.
  intros Ha. unfold _sip_required.
  assert (E : max (a / 12) 0.0001 = 0.0001).
  { unfold max. destruct (Qlt_le_dec (a / 12) 0.0001) as [|H]; [reflexivity|].
    exfalso. assert (a / 12 < 0.0001); [|lra].
    apply Qlt_shift_div_r; lra. }
  rewrite E. reflexivity.
Qed.

Lemma mapping_values (n : Z) :
  let a := default 0.1 (mapping n) in
  a = 0.065 ∨ a = 0.08 ∨ a = 0.105 ∨ a = 0.12 ∨ a = 0.145 ∨ a = 0.1.
Proof.
  destruct n as [|[[[]|[]|]|[[]|[]|]|]|]; cbn; auto 10.
Qed.

(** X5. Whatever the risk score, a returned rate lies between 6.5% and 14.5%,
    so the floor of [_sip_required] never applies to a rate coming from the
    table: the monthly rate is the annual rate divided by twelve. *)
Theorem table_rate_above_floor (risk_score : py_num) (a : Q) :
  _annual_return_from_risk risk_score = Some a →
  0.065 <= a ∧ a <= 0.145 ∧ max (a / 12) 0.0001 = a / 12.
Proof.
  unfold _annual_return_from_risk.
  destruct (int risk_score) as [n|]; [|discriminate].
  cbn [mbind option_bind]. intros [= <-].
  destruct (mapping_values n) as [->|[->|[->|[->|[->| ->]]]]];
    (split; [discriminate|]); (split; [discriminate|]); reflexivity.
Qed.

(** *** Goals in, plans out *)

Lemma plan_goal_coercible rs rate g :
  (coercible g ∧ ∃ p, plan_goal rs rate g = Some p ∧ name p = goal_name g) ∨
  (¬ coercible g ∧ plan_goal rs rate g = None).
Proof.
  unfold coercible, plan_goal.
  destruct (float (default (PyInt 0) (g_target_amount g))) as [t|].
  - destruct (float (default (PyInt 1) (g_years g))) as [y|].
    + left. split; [split; eauto|]. cbn [mbind option_bind].
      unfold _sip_required. eexists. split; reflexivity.
    + right. split; [|reflexivity]. intros [_ [? ?]]. discriminate.
  - right. split; [|reflexivity]. intros [[? ?] _]. discriminate.
Qed.

(** X6. The plans correspond, in order, to exactly the goals whose amount and
    horizon coerce to numbers: the others are skipped without disturbing
    their neighbours. *)
Theorem plans_follow_coercible_goals (goals : list goal) (risk_score : py_num)
  (plans : list GoalPlan) :
  build_goal_plans goals risk_score = Some plans →
  map name plans = map goal_name (filter coercible goals).
Proof.
  unfold build_goal_plans.
  destruct (_annual_return_from_risk risk_score) as [rate|]; [|discriminate].
  cbn [mbind option_bind]. intros [= <-].
  induction goals as [|g goals IH]; [reflexivity|].
  cbn [omap list_omap]. rewrite filter_cons.
  destruct (plan_goal_coercible risk_score rate g)
    as [(Hc & p & -> & Hn)|(Hc & ->)].
  - rewrite decide_True by exact Hc. cbn [map]. rewrite Hn.
    f_equal. exact IH.
  - rewrite decide_False by exact Hc. exact IH.
Qed.


End PlannerFacts.

Section EnvironmentFacts.
Import Py Engine.
Local Open Scope Q_scope.

Lemma plan_goal_same_numbers (env1 env2 : PlannerEnv) rs rate g :
  option_Forall2 same_numbers
    (@plan_goal env1 rs rate g) (@plan_goal env2 rs rate g).
Proof.
  unfold plan_goal.
  destruct (float (default (PyInt 0) (g_target_amount g))) as [t|];
    [|constructor].
  destruct (float (default (PyInt 1) (g_years g))) as [y|]; [|constructor].
  cbn [mbind option_bind]. unfold _sip_required.
  constructor. repeat split.
Qed.

(** X8. The language model and the text renderings never change the numbers:
    under any two environments [build_goal_plans] fails or succeeds alike, and
    returns plans for the same goals that agree on name, target, horizon,
    priority, contribution and projected value. *)
Theorem plans_independent_of_environment (env1 env2 : PlannerEnv)
  (goals : list goal) (risk_score : py_num) :
  option_Forall2 (Forall2 same_numbers)
    (@build_goal_plans env1 goals risk_score)
    (@build_goal_plans env2 goals risk_score).
Proof.
  unfold build_goal_plans.
  destruct (_annual_return_from_risk risk_score) as [rate|]; [|constructor].
  cbn [mbind option_bind]. constructor.
  induction goals as [|g goals IH]; [constructor|].
  cbn [omap list_omap].
  destruct (plan_goal_same_numbers env1 env2 risk_score rate g);
    [constructor; assumption | exact IH].
Qed.

End EnvironmentFacts.

(** * Further properties of the cash-flow summary and its alerts *)

Section CashFlowFacts.
Import Py Engine.
Local Open Scope Q_scope.
Context {env : PlannerEnv}.

(** The messages are pairwise distinct, whatever the rendering of the
    runway. *)
Lemma alert_messages_distinct r :
  deficit_msg ≠ thin_surplus_msg ∧ deficit_msg ≠ low_reserve_msg r ∧
  deficit_msg ≠ low_savings_msg ∧ deficit_msg ≠ healthy_msg ∧
  thin_surplus_msg ≠ low_reserve_msg r ∧ thin_surplus_msg ≠ low_savings_msg ∧
  thin_surplus_msg ≠ healthy_msg ∧ low_reserve_msg r ≠ low_savings_msg ∧
  low_reserve_msg r ≠ healthy_msg ∧ low_savings_msg ≠ healthy_msg.
Proof. repeat split; discriminate. Qed.

(** The fired rules, in the order of the source. *)
Lemma predictive_alerts_shape cs :
  predictive_alerts cs =
  match
    (if Qltb (surplus cs) 0 then [deficit_msg]
     else if Qltb (surplus cs) 5000 then [thin_surplus_msg] else [])
    ++ (if runway_below (runway_months cs) 3
        then [low_reserve_msg (runway_months cs)] else [])
    ++ (if Qltb (savings_rate cs) 0.2 then [low_savings_msg] else [])
  with
  | [] => [healthy_msg]
  | fired => fired
  end.
Proof.
  unfold predictive_alerts.
  destruct (Qltb (surplus cs) 0), (Qltb (surplus cs) 5000),
    (runway_below (runway_months cs) 3), (Qltb (savings_rate cs) 0.2);
    reflexivity.
Qed.

(** X9. Each warning is in the output exactly when its rule fires (deficit:
    negative surplus; thin surplus: surplus in [0, 5000); low reserve: runway
    below 3; low savings: rate below 0.20), and the output always holds
    between one and three messages. *)
Theorem alert_messages_match_rules (cs : cash_summary) :
  let out := predictive_alerts cs in
  (deficit_msg ∈ out ↔ surplus cs < 0) ∧
  (thin_surplus_msg ∈ out ↔ 0 <= surplus cs ∧ surplus cs < 5000) ∧
  (low_reserve_msg (runway_months cs) ∈ out
   ↔ ¬ runway_at_least (runway_months cs) 3) ∧
  (low_savings_msg ∈ out ↔ savings_rate cs < 0.2) ∧
  (1 <= length out <= 3)%nat.
Proof.
  cbv zeta. rewrite predictive_alerts_shape.
  destruct (alert_messages_distinct (runway_months cs))
    as (D1 & D2 & D3 & D4 & D5 & D6 & D7 & D8 & D9 & D10).
  destruct (Qltb (surplus cs) 0) eqn:E0;
    [apply Qltb_true in E0 | apply Qltb_false in E0];
    (destruct (Qltb (surplus cs) 5000) eqn:E1;
      [apply Qltb_true in E1 | apply Qltb_false in E1]);
    (destruct (runway_below (runway_months cs) 3) eqn:E2;
      [apply runway_below_true in E2 | apply runway_below_false in E2]);
    (destruct (Qltb (savings_rate cs) 0.2) eqn:E3;
      [apply Qltb_true in E3 | apply Qltb_false in E3]);
    cbn [app length]; rewrite ?elem_of_cons, ?elem_of_nil;
    (repeat split; try lia; try lra; try tauto;
     try (intros; exfalso; lra);
     try (intros H; exfalso; intuition (congruence || lra));
     try (exfalso; intuition (congruence || lra))).
Qed.

(** X10. On non-negative inputs the savings rate is between 0 and 1 and the
    runway is non-negative or infinite. *)
Theorem cash_summary_ranges
  (income expense existing_sips emi recommended cash_reserve : Q) :
  0 <= income → 0 <= expense → 0 <= emi → 0 <= cash_reserve →
  let s := summarize_cash_flow income expense existing_sips emi recommended
             cash_reserve in
  0 <= savings_rate s ∧ savings_rate s <= 1 ∧
  runway_at_least (runway_months s) 0.
Proof.
  intros Hi He Hd Hr s. subst s. unfold summarize_cash_flow.
  cbn [savings_rate runway_months].
  assert (Hsr : ∀ x, 0 <= max x 0) by (intros; apply max_lower_bound).
  split; [|split].
  - destruct (truthy income); [apply Hsr|lra].
  - destruct (truthy income) eqn:Ht; [|lra].
    assert (Hpos : 0 < income).
    { destruct (Qlt_le_dec 0 income) as [|Hle]; [assumption|].
      rewrite truthy_zero in Ht by lra. discriminate. }
    unfold max. destruct (Qlt_le_dec _ 0); [lra|].
    apply Qle_shift_div_r; lra.
  - destruct (truthy (expense + emi)) eqn:Ht; [|exact I]. cbn.
    assert (Hpos : 0 < expense + emi).
    { destruct (Qlt_le_dec 0 (expense + emi)) as [|Hle]; [assumption|].
      rewrite truthy_zero in Ht by lra. discriminate. }
    apply Qle_shift_div_l; lra.
Qed.

Lemma healthy_iff_no_rule cs :
  predictive_alerts cs = [healthy_msg] ↔
  Qltb (surplus cs) 5000 = false ∧ runway_below (runway_months cs) 3 = false ∧
  Qltb (savings_rate cs) 0.2 = false.
Proof.
  rewrite predictive_alerts_shape.
  destruct (alert_messages_distinct (runway_months cs))
    as (D1 & D2 & D3 & D4 & D5 & D6 & D7 & D8 & D9 & D10).
  destruct (Qltb (surplus cs) 0) eqn:E0.
  - assert (Qltb (surplus cs) 5000 = true) as ->.
    { apply Qltb_true. apply Qltb_true in E0. lra. }
    split; [|intros (? & _); discriminate].
    destruct (runway_below _ _), (Qltb (savings_rate cs) 0.2); cbn;
      intros Heq; exfalso; injection Heq; intros; congruence.
  - destruct (Qltb (surplus cs) 5000), (runway_below _ _),
      (Qltb (savings_rate cs) 0.2); cbn;
      (split;
        [intros Heq; try (repeat split; reflexivity);
         exfalso; injection Heq; intros; congruence
        | intros (? & ? & ?); try reflexivity; discriminate]).
Qed.

(** X11. Read on the inputs, for non-negative amounts: the dashboard shows
    the single healthy message exactly when income covers all outflows with
    5000 to spare, the reserve covers three months of burn, and expenses stay
    within 80% of income. *)
Theorem healthy_dashboard_criterion
  (income expense existing_sips emi recommended cash_reserve : Q) :
  0 <= income → 0 <= expense → 0 <= existing_sips → 0 <= emi →
  0 <= recommended → 0 <= cash_reserve →
  predictive_alerts
    (summarize_cash_flow income expense existing_sips emi recommended
       cash_reserve) = [healthy_msg]
  ↔ 5000 <= income - (expense + existing_sips + recommended + emi) ∧
    3 * (expense + emi) <= cash_reserve ∧
    expense <= 0.8 * income.
Proof.
  intros Hi He Hs Hd Hrec Hr. rewrite healthy_iff_no_rule.
  unfold summarize_cash_flow. cbn [surplus runway_months savings_rate].
  rewrite Qltb_false.
  assert (Hrun : runway_below
            (if truthy (expense + emi)
             then Months (cash_reserve / (expense + emi)) else Inf) 3 = false
          ↔ 3 * (expense + emi) <= cash_reserve).
  { destruct (Qlt_le_dec 0 (expense + emi)) as [Hb|Hb].
    - rewrite (truthy_pos _ Hb). cbn [runway_below]. rewrite Qltb_false. split.
      + intros H.
        assert (E : cash_reserve
                    == cash_reserve / (expense + emi) * (expense + emi))
          by (field; lra).
        rewrite E. apply Qmult_le_compat_r; lra.
      + intros H. apply Qle_shift_div_l; lra.
    - rewrite truthy_zero by lra. cbn [runway_below].
      assert (3 * (expense + emi) <= 0).
      { assert (E : expense + emi == 0) by lra. rewrite E. lra. }
      split; [intros _; lra | reflexivity]. }
  rewrite Hrun.
  destruct (Qlt_le_dec 0 income) as [Hin|Hin].
  - rewrite (truthy_pos _ Hin), Qltb_false.
    assert (Hsr : 0.2 <= max ((income - expense) / income) 0
                  ↔ expense <= 0.8 * income).
    { unfold max. destruct (Qlt_le_dec _ 0) as [Hneg|Hnn].
      - split; [intros; lra|]. intros H. exfalso.
        assert (0 <= (income - expense) / income)
          by (apply Qle_shift_div_l; lra). lra.
      - split.
        + intros H.
          assert (E : income - expense
                      == (income - expense) / income * income)
            by (field; lra).
          assert (0.2 * income <= (income - expense) / income * income)
            by (apply Qmult_le_compat_r; lra).
          lra.
        + intros H. apply Qle_shift_div_l; lra. }
    rewrite Hsr. tauto.
  - rewrite truthy_zero by lra.
    split; [intros (_ & _ & H); discriminate H | intros (H & _); lra].
Qed.

End CashFlowFacts.

(** * Further properties of the product matcher *)

Section MatcherFacts.
Import Py Engine.
Local Open Scope Q_scope.

(** *** Sorting by score *)

Lemma insert_desc_perm {A} (key : A → Q) x l : insert_desc key x l ≡ₚ x :: l.
Proof.
  induction l as [|y l IH]; cbn; [reflexivity|].
  destruct (Qltb (key x) (key y)); [|reflexivity].
  rewrite IH. apply perm_swap.
Qed.

Lemma sorted_desc_perm {A} (key : A → Q) l : sorted_desc key l ≡ₚ l.
Proof.
  induction l as [|x l IH]; cbn; [reflexivity|].
  rewrite insert_desc_perm, IH. reflexivity.
Qed.

Lemma insert_desc_descending {A} (key : A → Q) x l :
  descending key l → descending key (insert_desc key x l).
Proof.
  unfold descending. induction l as [|y l IH]; intros Hs; cbn.
  - repeat constructor.
  - apply StronglySorted_inv in Hs as [Hs Hy].
    destruct (Qltb (key x) (key y)) eqn:E.
    + apply Qltb_true in E. constructor; [auto|].
      apply Forall_forall. intros z Hz. rewrite insert_desc_perm in Hz.
      apply elem_of_cons in Hz as [->|Hz]; [lra|].
      rewrite Forall_forall in Hy. apply Hy, Hz.
    + apply Qltb_false in E. constructor; [constructor; assumption|].
      constructor; [exact E|].
      rewrite Forall_forall in Hy |- *. intros z Hz. specialize (Hy z Hz).
      cbn in Hy. lra.
Qed.

Lemma sorted_desc_descending {A} (key : A → Q) l :
  descending key (sorted_desc key l).
Proof.
  induction l as [|x l IH]; cbn; [constructor|].
  apply insert_desc_descending, IH.
Qed.

Lemma descending_app {A} (key : A → Q) l1 l2 :
  descending key (l1 ++ l2) →
  descending key l1 ∧ ∀ a b, a ∈ l1 → b ∈ l2 → key b <= key a.
Proof.
  unfold descending. induction l1 as [|x l1 IH]; cbn; intros Hs.
  - split; [constructor|]. intros a b Ha. inversion Ha.
  - apply StronglySorted_inv in Hs as [Hs Hx].
    destruct (IH Hs) as [Hl1 Hdom]. split.
    + constructor; [exact Hl1|].
      rewrite Forall_forall in Hx |- *. intros z Hz. apply Hx.
      apply elem_of_app. auto.
    + intros a b Ha Hb. apply elem_of_cons in Ha as [->|Ha]; [|auto].
      rewrite Forall_forall in Hx. apply Hx, elem_of_app. right. exact Hb.
Qed.


(** X12. [sorted(items, key=score, reverse=True)[:k]] keeps [min(k, n)] items,
    in non-increasing order of score, and every item left out scores no
    higher than every item kept. *)
Theorem select_keeps_the_best {A} (k : nat) (key : A → Q) (items : list A) :
  ∃ rest,
    items ≡ₚ select k key items ++ rest ∧
    length (select k key items) = Nat.min k (length items) ∧
    descending key (select k key items) ∧
    ∀ a b, a ∈ select k key items → b ∈ rest → key b <= key a.
Proof.
  exists (drop k (sorted_desc key items)). unfold select.
  rewrite take_drop. split; [symmetry; apply sorted_desc_perm|].
  split.
  { rewrite length_take, (Permutation_length (sorted_desc_perm key items)).
    reflexivity. }
  apply descending_app. rewrite take_drop. apply sorted_desc_descending.
Qed.

(** *** Ties *)

Lemma before_cons {A} (a b x : A) l : before a b l → before a b (x :: l).
Proof.
  intros (l1 & l2 & l3 & ->). exists (x :: l1), l2, l3. reflexivity.
Qed.

Lemma before_head {A} (a b : A) l : b ∈ l → before a b (a :: l).
Proof.
  intros Hb. apply list_elem_of_split in Hb as (l2 & l3 & ->).
  exists [], l2, l3. reflexivity.
Qed.

Lemma before_inv {A} (a b x : A) l :
  before a b (x :: l) → (a = x ∧ b ∈ l) ∨ before a b l.
Proof.
  intros (l1 & l2 & l3 & Heq). destruct l1 as [|y l1]; cbn in Heq.
  - injection Heq as -> ->. left. split; [reflexivity|].
    apply elem_of_app. right. left.
  - injection Heq as -> ->. right. exists l1, l2, l3. reflexivity.
Qed.

Lemma insert_desc_ties {A} (key : A → Q) x l a b :
  before a b (insert_desc key x l) → key a == key b →
  (a = x ∧ b ∈ l) ∨ before a b l.
Proof.
  induction l as [|y l IH]; cbn; intros Hb Hk.
  - destruct Hb as (l1 & l2 & l3 & Heq).
    destruct l1 as [|? [|? ?]]; cbn in Heq; try discriminate.
    injection Heq as _ Heq. destruct l2; discriminate.
  - destruct (Qltb (key x) (key y)) eqn:E.
    + apply Qltb_true in E.
      apply before_inv in Hb as [[-> Hin]|Hb].
      * rewrite insert_desc_perm in Hin.
        apply elem_of_cons in Hin as [->|Hin]; [lra|].
        right. apply before_head, Hin.
      * destruct (IH Hb Hk) as [[-> Hin]|Hb'].
        -- left. split; [reflexivity|]. right. exact Hin.
        -- right. apply before_cons, Hb'.
    + apply before_inv in Hb as [[-> Hin]|Hb]; [left|right]; auto.
Qed.

Lemma sorted_desc_stable {A} (key : A → Q) l a b :
  before a b (sorted_desc key l) → key a == key b → before a b l.
Proof.
  induction l as [|x l IH]; cbn; intros Hb Hk.
  - destruct Hb as ([|? ?] & l2 & l3 & Heq); discriminate.
  - destruct (insert_desc_ties key x _ a b Hb Hk) as [[-> Hin]|Hb'].
    + apply before_head. rewrite sorted_desc_perm in Hin. exact Hin.
    + apply before_cons, IH; assumption.
Qed.

(** X13. Ties keep the catalogue order: of two selected items with equal
    scores, the one listed first in the result is also listed first in the
    catalogue. *)
Theorem select_is_stable {A} (k : nat) (key : A → Q) (items : list A) (a b : A) :
  before a b (select k key items) → key a == key b → before a b items.
Proof.
  unfold select. intros (l1 & l2 & l3 & Heq) Hk.
  apply (sorted_desc_stable key); [|exact Hk].
  exists l1, l2, (l3 ++ drop k (sorted_desc key items)).
  rewrite <- (take_drop k (sorted_desc key items)) at 1. rewrite Heq.
  rewrite <- !app_assoc. cbn. rewrite <- !app_assoc. reflexivity.
Qed.

(** *** The three classes *)





(** X15. A fund never scores above its expected return plus the goal bonus of
    one, and a fund two or more risk levels away from the profile scores
    below its bare expected return even when a goal matches. *)
Theorem fund_score_bounds (p : profile) (item : fund) :
  score_mutual_fund p item <= 1 + default 0 (expected_return item) ∧
  (2 <= Qabs (default 3 (fund_risk_score item) - default 3 (risk_score p)) →
   score_mutual_fund p item < default 0 (expected_return item)).
Proof.
  unfold score_mutual_fund. cbv zeta.
  pose proof (Qabs_nonneg
    (default 3 (fund_risk_score item) - default 3 (risk_score p))) as Hr.
  pose proof (Qabs_nonneg
    (default 5 (ideal_horizon_years item) - default 5 (avg_goal_horizon p)))
    as Hh.
  set (dr := Qabs _) in *. set (dh := Qabs _) in *.
  destruct (existsb _ _); split; intros; lra.
Qed.




End MatcherFacts.

(** * Further properties of the recommendation service *)

Section ServiceFacts.
Import Py Recommendation.
Local Open Scope Q_scope.
Context {co : Collaborators}.

(** *** Suitability factors *)

(** No tier name is one of the labels the factor list compares it with. *)
Lemma tier_is_no_label (r : RiskLevel) (user_risk : option string) :
  String.eqb (value r) (factor_risk_mapping user_risk) = false.
Proof.
  unfold factor_risk_mapping. destruct user_risk as [k|].
  - destruct (String.eqb k "conservative"), (String.eqb k "moderate"),
      (String.eqb k "aggressive"), r; reflexivity.
  - destruct r; reflexivity.
Qed.

Ltac factor_stage :=
  lazymatch goal with
  | |- Forall ?P (if _ then _ else ?F) => cut (Forall P F)
  | |- Forall ?P (match _ with Some _ => _ | None => ?F end) => cut (Forall P F)
  end;
  [ let HF := fresh "HF" in
    intros HF;
    repeat first
      [ assumption
      | apply Forall_app; split
      | apply Forall_cons; split; [reflexivity|]
      | apply Forall_nil_2
      | match goal with
        | |- Forall _ (if ?b then _ else _) => destruct b
        | |- Forall _ (match ?d with _ => _ end) => destruct d
        end ]
  | ].

(** X18. The factor list never reports a risk match: the product's tier
    ([low], [medium], [high]) is compared with the labels [low risk],
    [moderate risk], [high risk], which it never equals. *)
Theorem suitability_never_reports_risk_match (p : Product) (u : user_profile)
  (h : option Q) :
  Forall (λ factor, String.prefix "Matches your" factor = false)
    (_get_suitability_factors p u h).
Proof.
  unfold _get_suitability_factors. cbv zeta. rewrite tier_is_no_label.
  factor_stage. factor_stage. factor_stage. factor_stage.
  constructor.
Qed.

(** *** Recommended investment *)

(** X19. An investment amount is recommended exactly when the profile has a
    non-zero income; for a product with a minimum investment the amount is
    the larger of that minimum and 10% of income, otherwise 15% of income. *)
Theorem recommended_investment_cases (p : Product) (u : user_profile) :
  (is_Some (_calculate_recommended_investment p u)
   ↔ truthy_opt (get_income u) = true) ∧
  ∀ r inc, _calculate_recommended_investment p u = Some r →
           get_income u = Some inc →
           if truthy_opt (min_investment p)
           then default 0 (min_investment p) <= r ∧ inc * 0.1 <= r
                ∧ (r = default 0 (min_investment p) ∨ r = inc * 0.1)
           else r = inc * 0.15.
Proof.
  unfold _calculate_recommended_investment, truthy_opt. split.
  - destruct (get_income u) as [inc|]; [|split; [intros [? ?]|]; discriminate].
    destruct (truthy inc); [|split; [intros [? ?]|]; discriminate].
    split; [reflexivity|]. intros _.
    destruct (min_investment p) as [m|]; [destruct (truthy m)|]; eauto.
  - intros r inc Hr Hinc. rewrite Hinc in Hr.
    destruct (truthy inc); [|discriminate].
    destruct (min_investment p) as [m|]; cbn [default from_option id].
    + destruct (truthy m); injection Hr as <-; [|reflexivity].
      unfold max. destruct (Qlt_le_dec m (inc * 0.1)); repeat split;
        auto; lra.
    + injection Hr as <-. reflexivity.
Qed.

(** *** [get_recommendations] *)

Lemma score_at_most_one p u h s :
  _calculate_match_score p u h = Some s → s <= 1.
Proof.
  intros Hs.
  destruct (match_score_decomposition p u h)
    as [(Hn & _)|(_ & _ & s' & b & Hs' & _ & _ & Heq)]; [congruence|].
  rewrite Hs in Hs'. injection Hs' as <-.
  destruct (min_spec (0.5 + b) 1) as (_ & H1 & _). lra.
Qed.

Lemma score_needs_profile p u h :
  user_risk u = None ∨ get_age u = None → _calculate_match_score p u h = None.
Proof.
  intros Hbad.
  destruct (match_score_decomposition p u h)
    as [(Hn & _)|([? Hu] & [? Ha] & _)]; [exact Hn|].
  destruct Hbad; congruence.
Qed.

(** What the loop adds to the list it is given. *)
Lemma recommend_loop_spec u h rows : ∀ acc out,
  recommend_loop u h rows acc = Some out →
  ∃ new, out = acc ++ new ∧ Forall (built_from u h rows) new.
Proof.
  induction rows as [|p rows IH]; intros acc out H; cbn in H.
  - injection H as <-. exists []. split; [symmetry; apply app_nil_r|constructor].
  - destruct (_calculate_match_score p u h) as [s|] eqn:Hs; [|discriminate].
    cbn [mbind option_bind] in H.
    assert (Hweaken : ∀ new,
      Forall (built_from u h rows) new → Forall (built_from u h (p :: rows)) new).
    { intros new Hn. eapply Forall_impl; [exact Hn|].
      intros r (? & ?). split; [right|]; auto. }
    destruct (Qltb 0.5 s) eqn:Hcut.
    + destruct (generate_recommendation_reasoning p u) as [text|];
        [|discriminate].
      cbn [mbind option_bind] in H.
      destruct (IH _ _ H) as (new & -> & Hnew).
      eexists (_ :: new). rewrite <- app_assoc. split; [reflexivity|].
      constructor; [|apply Hweaken, Hnew]. unfold built_from. cbn.
      apply Qltb_true in Hcut. repeat split; auto. left.
    + destruct (IH _ _ H) as (new & -> & Hnew).
      exists new. split; [reflexivity|]. apply Hweaken, Hnew.
Qed.

Lemma slice_to_subset {A} limit (l : list A) x : x ∈ slice_to limit l → x ∈ l.
Proof.
  unfold slice_to. destruct (0 <=? limit)%Z; apply subseteq_take.
Qed.

Lemma descending_take {A} (key : A → Q) n l :
  Engine.descending key l → Engine.descending key (take n l).
Proof.
  intros H. rewrite <- (take_drop n l) in H.
  apply descending_app in H. apply H.
Qed.

(** X20. What [get_recommendations] returns: at most [limit] entries (for a
    non-negative limit), best score first, each for a product of the table,
    with that product's match score, which lies above the cutoff 0.5 and at
    most at 1, and with its factor list and investment amount. *)
Theorem get_recommendations_results (db : Database) (user_id : Z)
  (goal_id : option Z) (limit : Z) (out : list ProductRecommendation) :
  get_recommendations db user_id goal_id limit = Some out →
  (0 <= limit)%Z →
  (length out <= Z.to_nat limit)%nat ∧
  Engine.descending match_score out ∧
  ∀ r, r ∈ out →
       product r ∈ products db ∧ 0.5 < match_score r ∧ match_score r <= 1 ∧
       ∃ user, List.find (λ u, bool_decide (u_id u = user_id)) (users db)
               = Some user ∧
         let u := profile_of_user user in
         let h := goal_horizon db user_id goal_id in
         _calculate_match_score (product r) u h = Some (match_score r) ∧
         suitability_factors r = _get_suitability_factors (product r) u h ∧
         recommended_investment r
         = _calculate_recommended_investment (product r) u.
Proof.
  unfold get_recommendations. intros H Hlimit.
  destruct (List.find _ (users db)) as [user|] eqn:Hfind.
  2:{ injection H as <-. split; [cbn; lia|]. split; [constructor|].
      intros r Hr. inversion Hr. }
  cbv zeta in H.
  destruct (recommend_loop _ _ _ []) as [recs|] eqn:Hloop; [|discriminate].
  cbn [mbind option_bind] in H. injection H as <-.
  destruct (recommend_loop_spec _ _ _ _ _ Hloop) as (new & -> & Hnew).
  cbn [app] in *. unfold slice_to.
  assert (E : (0 <=? limit)%Z = true) by lia. rewrite E.
  split; [rewrite length_take; lia|].
  split; [apply descending_take, sorted_desc_descending|].
  intros r Hr. apply subseteq_take in Hr. rewrite sorted_desc_perm in Hr.
  rewrite Forall_forall in Hnew. destruct (Hnew r Hr) as (Hp & Hs & Hcut & Hf & Hi).
  split; [exact Hp|]. split; [exact Hcut|].
  split; [eapply score_at_most_one; exact Hs|].
  exists user. split; [reflexivity|]. cbv zeta. auto.
Qed.

(** X21. Nothing is recommended to an unknown user, and the call fails for a
    known user whose risk tolerance is missing or not one of [conservative],
    [moderate], [aggressive], or whose age is missing, as soon as the product
    table is not empty. *)
Theorem get_recommendations_needs_profile (db : Database) (user_id : Z)
  (goal_id : option Z) (limit : Z) :
  match List.find (λ u, bool_decide (u_id u = user_id)) (users db) with
  | None => get_recommendations db user_id goal_id limit = Some []
  | Some user =>
      (u_risk_tolerance user ≫= risk_mapping = None ∨ u_age user = None) →
      products db ≠ [] →
      get_recommendations db user_id goal_id limit = None
  end.
Proof.
  unfold get_recommendations.
  destruct (List.find _ (users db)) as [user|]; [|reflexivity].
  intros Hbad Hne. cbv zeta.
  destruct (products db) as [|p rows]; [congruence|]. cbn [recommend_loop].
  rewrite score_needs_profile; [reflexivity|].
  unfold user_risk, get_age, profile_of_user. cbn. exact Hbad.
Qed.

(** X22. A goal horizon, when there is one, is at least one month: any goal
    created before its target date counts, and one due within thirty days
    counts as a one-month horizon. *)
Theorem goal_horizon_at_least_one_month (db : Database) (user_id : Z)
  (goal_id : option Z) (h : Q) :
  goal_horizon db user_id goal_id = Some h →
  1 <= h ∧ truthy h = true ∧
  ∃ gid goal target created,
    goal_id = Some gid ∧ goal ∈ goals db ∧ g_id goal = gid ∧
    g_user_id goal = user_id ∧ target_date goal = Some target ∧
    created_at goal = Some created ∧
    (created + microseconds_per_day <= target)%Z.
Proof.
  unfold goal_horizon. destruct goal_id as [gid|]; [|discriminate].
  destruct (gid =? 0)%Z; [discriminate|].
  destruct (List.find _ (goals db)) as [goal|] eqn:Hfind; [|discriminate].
  destruct (target_date goal) as [target|] eqn:Ht; [|discriminate].
  destruct (created_at goal) as [created|] eqn:Hc; [|discriminate].
  cbv zeta. destruct (0 <? _)%Z eqn:Hd; [|discriminate]. intros [= <-].
  pose proof (max_lower_bound
    (inject_Z ((target - created) / microseconds_per_day) / 30) 1) as Hge.
  split; [exact Hge|]. split; [apply truthy_pos; lra|].
  apply find_some in Hfind as [Hin Hb]. apply andb_prop in Hb as [H1 H2].
  apply bool_decide_eq_true in H1, H2.
  exists gid, goal, target, created.
  repeat split; auto; [apply list_elem_of_In, Hin|].
  apply Z.ltb_lt in Hd.
  assert (Hday : (0 < microseconds_per_day)%Z) by reflexivity.
  assert (1 <= (target - created) / microseconds_per_day)%Z by lia.
  pose proof (Z.mul_div_le (target - created) microseconds_per_day Hday).
  nia.
Qed.

End ServiceFacts.

(** * Further properties of the alert service *)

Section AlertServiceFacts.
Import Py AlertService.
Local Open Scope Z_scope.
Context {backend : Backend}.

(** *** Reading alerts *)

(** X23. [get_alerts] returns at most [limit] alerts, newest first, all of
    them visible alerts of the user with the requested read flag; when the
    limit is not reached, none of those is missing. *)
Theorem get_alerts_results (db : Session) (user_id : Z) (is_read : option bool)
  (limit : nat) :
  let out := get_alerts db user_id is_read limit in
  let wanted a :=
    a ∈ visible db ∧ Alert.user_id a = user_id
    ∧ ∀ flag, is_read = Some flag → Alert.is_read a = flag in
  (length out <= limit)%nat ∧
  Engine.descending (λ a, inject_Z (Alert.created_at a)) out ∧
  (∀ a, a ∈ out → wanted a) ∧
  ((length out < limit)%nat → ∀ a, wanted a → a ∈ out).
Proof.
  cbv zeta. unfold get_alerts. cbv zeta.
  set (q := match is_read with Some _ => _ | None => _ end).
  assert (Hq : ∀ a, a ∈ q ↔
    a ∈ visible db ∧ Alert.user_id a = user_id
    ∧ ∀ flag, is_read = Some flag → Alert.is_read a = flag).
  { intros a. subst q. destruct is_read as [flag|].
    - rewrite !list_elem_of_filter. split.
      + intros (Hf & Hu & Hv). repeat split; auto. intros ? [= <-]. exact Hf.
      + intros (Hv & Hu & Hf). auto.
    - rewrite list_elem_of_filter. split.
      + intros (Hu & Hv). repeat split; auto. discriminate.
      + intros (Hv & Hu & _). auto. }
  set (sorted := Engine.sorted_desc _ q).
  split; [rewrite length_take; lia|].
  split; [apply descending_take, sorted_desc_descending|].
  split.
  - intros a Ha. apply subseteq_take in Ha. subst sorted.
    rewrite sorted_desc_perm in Ha. apply Hq, Ha.
  - rewrite length_take. intros Hlt a Ha.
    rewrite take_ge by lia. subst sorted. rewrite sorted_desc_perm.
    apply Hq, Ha.
Qed.

(** X24. [mark_alert_read] succeeds exactly when the alert exists and belongs
    to the user, and then only sets the read flag of that one row; otherwise
    it changes nothing.  No user can mark another user's alert. *)
Theorem mark_alert_read_effect (db : Session) (alert_id : nat) (user_id : Z) :
  pending db = [] →
  let db' := fst (mark_alert_read db alert_id user_id) in
  let ok := snd (mark_alert_read db alert_id user_id) in
  (ok = true ↔ ∃ a, alerts db !! alert_id = Some a ∧ Alert.user_id a = user_id) ∧
  (ok = false → db' = db) ∧
  (ok = true → alerts db' !! alert_id = set_read <$> alerts db !! alert_id) ∧
  (∀ j, j ≠ alert_id → alerts db' !! j = alerts db !! j) ∧
  length (alerts db') = length (alerts db) ∧
  transactions db' = transactions db ∧ goals db' = goals db ∧
  obligations db' = obligations db ∧ users db' = users db.
Proof.
  intros Hp. cbv zeta. unfold mark_alert_read.
  destruct (alerts db !! alert_id) as [a|] eqn:Ha.
  - destruct (bool_decide (Alert.user_id a = user_id)) eqn:Hu.
    + apply bool_decide_eq_true in Hu. cbn. rewrite Hp, app_nil_r.
      split; [split; eauto|]. split; [discriminate|].
      split.
      { intros _. apply list_lookup_insert_eq. eapply lookup_lt_Some, Ha. }
      split; [intros j Hj; apply list_lookup_insert_ne; auto|].
      rewrite length_insert. auto.
    + apply bool_decide_eq_false in Hu. cbn.
      split; [split; [discriminate|intros (a' & [= <-] & ?); tauto]|].
      repeat split; auto; discriminate.
  - cbn. split; [split; [discriminate|intros (a' & ? & ?); discriminate]|].
    repeat split; auto; discriminate.
Qed.

(** *** What a run adds *)

Lemma extended_by_nil db : pending db = [] → extended_by db db [].
Proof. intros H. repeat split; auto. symmetry. apply app_nil_r. Qed.

Lemma extended_by_one db a :
  pending db = [] → extended_by db (commit (add a db)) [a].
Proof. intros H. unfold commit, add. repeat split; cbn. rewrite H. reflexivity. Qed.

Lemma extended_by_trans db1 db2 db3 n1 n2 :
  extended_by db1 db2 n1 → extended_by db2 db3 n2 →
  extended_by db1 db3 (n1 ++ n2).
Proof.
  intros (? & ? & ? & ? & ? & Ha) (? & ? & ? & ? & ? & Hb).
  repeat split; try congruence. rewrite Hb, Ha. symmetry. apply app_assoc.
Qed.

Lemma check_low_balance_adds now db uid threshold db1 out :
  pending db = [] →
  check_low_balance now db uid threshold = (db1, out) →
  extended_by db db1 (option_list out) ∧ Forall (fresh now uid) (option_list out).
Proof.
  intros Hp. unfold check_low_balance.
  destruct (Qltb _ _); [destruct (existsb _ _)|]; intros [= <- <-]; cbn;
    try (split; [apply extended_by_nil, Hp|constructor]).
  split; [apply extended_by_one, Hp|]. repeat constructor.
Qed.

Lemma check_budget_exceeded_adds now db uid db1 out :
  pending db = [] →
  check_budget_exceeded now db uid = (db1, out) →
  extended_by db db1 (option_list out) ∧ Forall (fresh now uid) (option_list out).
Proof.
  intros Hp. rewrite check_budget_exceeded_due.
  destruct (budget_due now db uid) as [[total budget]|];
    [destruct (existsb _ _)|]; intros [= <- <-]; cbn;
    try (split; [apply extended_by_nil, Hp|constructor]).
  split; [apply extended_by_one, Hp|]. repeat constructor.
Qed.

Lemma goal_loop_fresh now uid sel : ∀ db created db' created',
  goal_loop now uid sel db created = Some (db', created') →
  Forall (fresh now uid) created → Forall (fresh now uid) created'.
Proof.
  induction sel as [|g rest IH]; intros db created db' created' H Hc; cbn in H.
  - injection H as <- <-. exact Hc.
  - destruct (existsb _ _); [eapply IH; eauto|].
    destruct (goal_progress g) as [progress|]; [|discriminate].
    cbn [mbind option_bind] in H. eapply IH; [exact H|].
    apply Forall_app. split; [exact Hc|]. repeat constructor.
Qed.

Lemma obligation_loop_fresh now uid n sel : ∀ db created db' created',
  obligation_loop now uid n sel db created = (db', created') →
  Forall (fresh now uid) created → Forall (fresh now uid) created'.
Proof.
  induction sel as [|o rest IH]; intros db created db' created' H Hc; cbn in H.
  - injection H as <- <-. exact Hc.
  - destruct (obligation_due now n o) as [due|]; [|eapply IH; eauto].
    destruct (existsb _ _); [eapply IH; eauto|].
    eapply IH; [exact H|].
    apply Forall_app. split; [exact Hc|]. repeat constructor.
Qed.

Lemma goal_loop_created now uid sel : ∀ db created db' created',
  goal_loop now uid sel db created = Some (db', created') →
  ∃ new, created' = created ++ new ∧ pending db' = pending db ++ new ∧
         alerts db' = alerts db ∧
         transactions db' = transactions db ∧ goals db' = goals db ∧
         obligations db' = obligations db ∧ users db' = users db.
Proof.
  induction sel as [|g rest IH]; intros db created db' created' H; cbn in H.
  - injection H as <- <-. exists []. rewrite !app_nil_r. auto 10.
  - destruct (existsb _ _); [eauto|].
    destruct (goal_progress g) as [progress|]; [|discriminate].
    cbn [mbind option_bind] in H.
    destruct (IH _ _ _ _ H) as (new & -> & Hp & Ha & Ht & Hg & Ho & Hu).
    exists (goal_alert now uid g progress :: new). cbn in *.
    rewrite <- !app_assoc in *. auto 10.
Qed.

Lemma obligation_loop_created now uid n sel : ∀ db created db' created',
  obligation_loop now uid n sel db created = (db', created') →
  ∃ new, created' = created ++ new ∧ pending db' = pending db ++ new ∧
         alerts db' = alerts db ∧
         transactions db' = transactions db ∧ goals db' = goals db ∧
         obligations db' = obligations db ∧ users db' = users db.
Proof.
  induction sel as [|o rest IH]; intros db created db' created' H; cbn in H.
  - injection H as <- <-. exists []. rewrite !app_nil_r. auto 10.
  - destruct (obligation_due now n o) as [due|]; [|eauto].
    destruct (existsb _ _); [eauto|].
    destruct (IH _ _ _ _ H) as (new & -> & Hp & Ha & Ht & Hg & Ho & Hu).
    exists (obligation_alert now uid o due :: new). cbn in *.
    rewrite <- !app_assoc in *. auto 10.
Qed.

Lemma commit_when_created db' new db1 (out : list Alert.t) :
  pending db' = new →
  match new with [] => (db', new) | _ => (commit db', new) end = (db1, out) →
  out = new ∧ pending db1 = [] ∧ alerts db1 = alerts db' ++ new ∧
  transactions db1 = transactions db' ∧ goals db1 = goals db' ∧
  obligations db1 = obligations db' ∧ users db1 = users db'.
Proof.
  intros Hp H. destruct new as [|a new]; injection H as <- <-.
  - rewrite app_nil_r. auto 10.
  - cbn. rewrite Hp. auto 10.
Qed.

Lemma check_goal_deadlines_adds now db uid db1 out :
  pending db = [] →
  check_goal_deadlines now db uid = Some (db1, out) →
  extended_by db db1 out ∧ Forall (fresh now uid) out.
Proof.
  intros Hp. unfold check_goal_deadlines.
  destruct (goal_loop now uid _ db []) as [[db' created]|] eqn:Hloop;
    [|discriminate].
  cbn [mbind option_bind]. intros H.
  pose proof (goal_loop_fresh _ _ _ _ _ _ _ Hloop (Forall_nil_2 _)) as Hfresh.
  apply goal_loop_created in Hloop
    as (new & Hc & Hpn & Ha & Ht & Hg & Ho & Hu).
  cbn in Hc. subst created. rewrite Hp in Hpn. cbn in Hpn.
  assert (H' : match new with [] => (db', new) | _ => (commit db', new) end
               = (db1, out)).
  { destruct new; injection H as <- <-; reflexivity. }
  apply (commit_when_created _ _ _ _ Hpn) in H'
    as (-> & Hp1 & Ha1 & Ht1 & Hg1 & Ho1 & Hu1).
  split; [|exact Hfresh]. repeat split; congruence.
Qed.

Lemma check_obligations_due_adds now db uid n db1 out :
  pending db = [] →
  check_obligations_due now db uid n = (db1, out) →
  extended_by db db1 out ∧ Forall (fresh now uid) out.
Proof.
  intros Hp. unfold check_obligations_due.
  destruct (obligation_loop now uid n _ db []) as [db' created] eqn:Hloop.
  intros H.
  pose proof (obligation_loop_fresh _ _ _ _ _ _ _ _ Hloop (Forall_nil_2 _))
    as Hfresh.
  apply obligation_loop_created in Hloop
    as (new & Hc & Hpn & Ha & Ht & Hg & Ho & Hu).
  cbn in Hc. subst created. rewrite Hp in Hpn. cbn in Hpn.
  apply (commit_when_created _ _ _ _ Hpn) in H
    as (-> & Hp1 & Ha1 & Ht1 & Hg1 & Ho1 & Hu1).
  split; [|exact Hfresh]. repeat split; congruence.
Qed.

(** X25. A run of [generate_all_alerts] only appends: the alert table after
    the run is the table before it followed by exactly the returned alerts,
    in order; every returned alert is unread, belongs to the user and is
    stamped by the database; no other table changes and nothing is left
    uncommitted. *)
Theorem generate_all_alerts_appends (now : Z) (db : Session) (user_id : Z)
  (db1 : Session) (created : list Alert.t) :
  pending db = [] →
  generate_all_alerts now db user_id = Some (db1, created) →
  alerts db1 = alerts db ++ created ∧
  Forall (fresh now user_id) created ∧
  pending db1 = [] ∧
  transactions db1 = transactions db ∧ goals db1 = goals db ∧
  obligations db1 = obligations db ∧ users db1 = users db.
Proof.
  intros Hp. unfold generate_all_alerts.
  destruct (check_low_balance now db user_id 10000) as [dba low] eqn:Hlow.
  destruct (check_low_balance_adds _ _ _ _ _ _ Hp Hlow) as [Ea Fa].
  destruct (check_goal_deadlines now dba user_id) as [[dbb ga]|] eqn:Hgoal;
    [|discriminate].
  cbn [mbind option_bind].
  destruct (check_goal_deadlines_adds _ _ _ _ _ ltac:(apply Ea) Hgoal)
    as [Eb Fb].
  destruct (check_obligations_due now dbb user_id 5) as [dbc oa] eqn:Hob.
  destruct (check_obligations_due_adds _ _ _ _ _ _ ltac:(apply Eb) Hob)
    as [Ec Fc].
  destruct (check_budget_exceeded now dbc user_id) as [dbd ba] eqn:Hbud.
  destruct (check_budget_exceeded_adds _ _ _ _ _ ltac:(apply Ec) Hbud)
    as [Ed Fd].
  intros [= <- <-].
  pose proof (extended_by_trans _ _ _ _ _
                (extended_by_trans _ _ _ _ _
                   (extended_by_trans _ _ _ _ _ Ea Eb) Ec) Ed) as E.
  destruct E as (Ht & Hg & Ho & Hu & Hpd & Hal).
  assert (HF : Forall (fresh now user_id)
                 (((option_list low ++ ga) ++ oa) ++ option_list ba))
    by (repeat (apply Forall_app; split); assumption).
  clear Fa Fd.
  destruct low as [l|], ba as [b|]; cbn [option_list app] in *;
    rewrite ?app_nil_r in *; repeat split; auto.
Qed.

(** *** When a run fails *)

Lemma goal_loop_total now uid sel :
  (∀ g, In g sel → is_Some (goal_progress g)) →
  ∀ db created, is_Some (goal_loop now uid sel db created).
Proof.
  induction sel as [|g rest IH]; intros Hok db created; cbn; [eauto|].
  destruct (existsb _ _); [apply IH; intros; apply Hok; right; assumption|].
  destruct (Hok g (or_introl eq_refl)) as [progress ->].
  cbn [mbind option_bind]. apply IH. intros; apply Hok; right; assumption.
Qed.

Lemma check_low_balance_goals now db uid threshold :
  goals (fst (check_low_balance now db uid threshold)) = goals db.
Proof.
  unfold check_low_balance.
  destruct (Qltb _ _); [destruct (existsb _ _)|]; reflexivity.
Qed.

(** X26. [generate_all_alerts] returns (it does not raise) whenever every
    active goal of the user that is due within thirty days has a current
    amount and a non-zero target amount. *)
Theorem generate_all_alerts_succeeds (now : Z) (db : Session) (user_id : Z) :
  (∀ g, g ∈ goals db → goal_in_window now user_id g →
        is_Some (goal_progress g)) →
  is_Some (generate_all_alerts now db user_id).
Proof.
  intros Hok. unfold generate_all_alerts.
  pose proof (check_low_balance_goals now db user_id 10000) as Hg.
  destruct (check_low_balance now db user_id 10000) as [dba low]. cbn in Hg.
  unfold check_goal_deadlines. rewrite Hg.
  destruct (goal_loop_total now user_id
              (filter (λ g, Is_true (goal_in_window now user_id g)) (goals db)))
    with (db := dba) (created := @nil Alert.t) as [[db' created] ->].
  { intros g Hin.
    apply list_elem_of_In, list_elem_of_filter in Hin as [Hw Hin]. auto. }
  cbn [mbind option_bind].
  destruct created; cbn [mbind option_bind];
    destruct (check_obligations_due _ _ _ _) as [dbc oa];
    destruct (check_budget_exceeded _ _ _) as [dbd ba]; eauto.
Qed.

Lemma low_balance_alert_is_no_goal_alert now uid balance threshold g :
  goal_existing uid g (low_balance_alert now uid balance threshold) = false.
Proof.
  unfold goal_existing, low_balance_alert, new_alert. cbn.
  rewrite (bool_decide_eq_false_2 (AlertType.LOW_BALANCE = _)) by discriminate.
  rewrite andb_false_r. reflexivity.
Qed.

Lemma existsb_false_incl {A} (f : A → bool) (l l' : list A) :
  (∀ x, In x l → In x l') → existsb f l' = false → existsb f l = false.
Proof.
  intros Hincl H. apply not_true_is_false. intros Ht.
  apply existsb_exists in Ht as (x & Hx & Hf).
  assert (existsb f l' = true) by (apply existsb_exists; eauto). congruence.
Qed.

Lemma visible_within db a : In a (visible db) → In a (alerts db ++ pending db).
Proof. unfold visible. rewrite !in_app_iff. destruct autoflush; cbn; tauto. Qed.

(** X27. [generate_all_alerts] raises when the first due goal of the user has
    no unread deadline alert and its progress cannot be computed (a zero
    target amount or a missing current amount): the division fails and no
    alert list is returned. *)
Theorem generate_all_alerts_fails_on_bad_goal (now : Z) (db : Session)
  (user_id : Z) (g : Goal.t) (rest : list Goal.t) :
  filter (λ g, Is_true (goal_in_window now user_id g)) (goals db) = g :: rest →
  existsb (goal_existing user_id g) (alerts db ++ pending db) = false →
  goal_progress g = None →
  generate_all_alerts now db user_id = None.
Proof.
  intros Hsel Hnone Hbad. unfold generate_all_alerts.
  pose proof (check_low_balance_goals now db user_id 10000) as Hg.
  assert (Hvis : existsb (goal_existing user_id g)
                   (visible (fst (check_low_balance now db user_id 10000)))
                 = false).
  { unfold check_low_balance.
    destruct (Qltb _ _); [destruct (existsb _ (visible db))|]; cbn [fst];
      try (revert Hnone; apply existsb_false_incl, visible_within).
    eapply existsb_false_incl; [apply visible_within|].
    unfold commit, add. cbn [alerts pending]. rewrite app_nil_r.
    rewrite existsb_app in Hnone. apply orb_false_elim in Hnone as [H1 H2].
    rewrite !existsb_app, H1, H2. cbn [existsb].
    rewrite low_balance_alert_is_no_goal_alert. reflexivity. }
  destruct (check_low_balance now db user_id 10000) as [dba low].
  cbn [fst] in *. unfold check_goal_deadlines. rewrite Hg, Hsel.
  cbn [goal_loop]. rewrite Hvis, Hbad. reflexivity.
Qed.

(** *** Reading an alert re-arms its rule *)

(** X28. Only unread alerts suppress a new one.  While the user's low-balance
    alert is unread, [check_low_balance] creates nothing; once that alert
    (the only unread one of its kind) is marked read and the balance is still
    below the threshold, the next check creates a new alert. *)
Theorem read_alert_rearms_low_balance (now : Z) (db : Session) (alert_id : nat)
  (user_id : Z) (threshold : Q) (a : Alert.t) :
  pending db = [] →
  Qltb (balance_of db user_id) threshold = true →
  alerts db !! alert_id = Some a →
  low_balance_existing user_id a = true →
  (∀ j b, j ≠ alert_id → alerts db !! j = Some b →
          low_balance_existing user_id b = false) →
  snd (check_low_balance now db user_id threshold) = None ∧
  is_Some (snd (check_low_balance now
                  (fst (mark_alert_read db alert_id user_id))
                  user_id threshold)).
Proof.
  intros Hp Hlow Ha Hex Hothers. split.
  - unfold check_low_balance. rewrite Hlow.
    assert (existsb (low_balance_existing user_id) (visible db) = true) as ->.
    { apply existsb_exists. exists a. split; [|exact Hex].
      unfold visible. apply in_app_iff. left.
      apply list_elem_of_In, list_elem_of_lookup. eauto. }
    reflexivity.
  - assert (Hu : Alert.user_id a = user_id).
    { unfold low_balance_existing in Hex.
      apply andb_prop in Hex as [Hex _]. apply andb_prop in Hex as [Hex _].
      apply bool_decide_eq_true in Hex. exact Hex. }
    unfold mark_alert_read. rewrite Ha, bool_decide_eq_true_2 by exact Hu.
    cbn [fst]. unfold check_low_balance.
    assert (Hbal : balance_of
      (commit {| transactions := transactions db; goals := goals db;
                 obligations := obligations db; users := users db;
                 alerts := <[alert_id := set_read a]> (alerts db);
                 pending := pending db |}) user_id = balance_of db user_id)
      by reflexivity.
    rewrite Hbal, Hlow.
    assert (existsb (low_balance_existing user_id)
              (visible (commit
                 {| transactions := transactions db; goals := goals db;
                    obligations := obligations db; users := users db;
                    alerts := <[alert_id := set_read a]> (alerts db);
                    pending := pending db |})) = false) as ->.
    { apply not_true_is_false. intros Ht.
      apply existsb_exists in Ht as (x & Hx & Hf).
      apply visible_within in Hx. cbn [commit alerts pending] in Hx.
      rewrite Hp, !app_nil_r in Hx.
      apply list_elem_of_In, list_elem_of_lookup in Hx as (j & Hj).
      apply list_lookup_insert_Some in Hj as [(-> & <- & _)|(Hne & Hj)].
      - unfold low_balance_existing, set_read in Hf. cbn in Hf.
        rewrite andb_false_r in Hf. discriminate.
      - rewrite (Hothers j x) in Hf by auto. discriminate. }
    cbn [snd]. eauto.
Qed.

End AlertServiceFacts.

(** * Properties of the dashboard pipeline *)

Section DashboardFacts.
Import Py Engine Dashboard.
Local Open Scope Q_scope.
Context {env : PlannerEnv}.


Lemma recommended_sip_app plans p :
  recommended_sip (plans ++ [p]) == recommended_sip plans + monthly_investment p.
Proof.
  unfold recommended_sip. rewrite fold_left_app. cbn. reflexivity.
Qed.

Lemma build_goal_plans_snoc goals g risk_score plans :
  build_goal_plans goals risk_score = Some plans →
  build_goal_plans (goals ++ [g]) risk_score
  = Some (plans ++ from_option (λ p, [p]) []
            (rate ← _annual_return_from_risk risk_score;
             plan_goal risk_score rate g)).
Proof.
  unfold build_goal_plans.
  destruct (_annual_return_from_risk risk_score) as [rate|]; [|discriminate].
  cbn [mbind option_bind]. intros [= <-]. rewrite omap_app. cbn.
  destruct (plan_goal risk_score rate g); reflexivity.
Qed.

(** X29. On the dashboard every further goal with a non-negative target takes
    its monthly contribution, which is non-negative, out of the surplus: the
    surplus never rises when a goal is added, and runway and savings rate are
    unchanged. *)
Theorem added_goal_lowers_surplus (goals : list goal) (g : goal)
  (risk_score : py_num) (t y : Q)
  (income expense existing_sips emi cash_reserve : Q) (s : cash_summary) :
  cash_summary_for goals risk_score income expense existing_sips emi cash_reserve
  = Some s →
  float (default (PyInt 0) (g_target_amount g)) = Some t →
  float (default (PyInt 1) (g_years g)) = Some y →
  0 <= t →
  ∃ s' rate,
    cash_summary_for (goals ++ [g]) risk_score income expense existing_sips emi
      cash_reserve = Some s' ∧
    _annual_return_from_risk risk_score = Some rate ∧
    surplus s' == surplus s - fst (_sip_required t y rate) ∧
    surplus s' <= surplus s ∧
    runway_months s' = runway_months s ∧ savings_rate s' = savings_rate s.
Proof.
  unfold cash_summary_for. intros Hs Ht Hy Hpos.
  destruct (build_goal_plans goals risk_score) as [plans|] eqn:Hb;
    [|discriminate].
  cbn [mbind option_bind] in Hs. injection Hs as <-.
  rewrite (build_goal_plans_snoc _ g _ _ Hb).
  assert (∃ rate, _annual_return_from_risk risk_score = Some rate)
    as [rate Hr].
  { unfold build_goal_plans in Hb.
    destruct (_annual_return_from_risk risk_score); [eauto|discriminate]. }
  rewrite Hr. cbn [mbind option_bind].
  destruct (plan_goal_some risk_score rate g t y Ht Hy)
    as (p & -> & _ & _ & _ & Hmi & _).
  cbn [from_option]. eexists _, rate. split; [reflexivity|].
  split; [reflexivity|].
  unfold summarize_cash_flow. cbn [surplus runway_months savings_rate].
  rewrite recommended_sip_app, Hmi.
  pose proof (contributions_nonneg t y rate Hpos).
  repeat split; lra.
Qed.



End DashboardFacts.

(** * The further properties on sample data *)


(** X2 on the same target, between horizons of 5 and 8 years. *)
Lemma contribution_antitone_in_horizon_witness :
  (fst (Engine._sip_required 1500000 8 0.1)
   <= fst (Engine._sip_required 1500000 5 0.1))%Q.
Proof.
  apply (contribution_antitone_in_horizon 1500000 5 8 0.1); discriminate.
Defined.


(** X4 on a return of 0.1%. *)
Lemma low_return_floored_witness :
  Engine._sip_required 400000 2 0.001 = Engine._sip_required 400000 2 0.
Proof.
  apply (low_return_floored 400000 2 0.001). reflexivity.
Defined.

(** X5 on the highest risk score. *)
Lemma table_rate_above_floor_witness :
  ∃ a, Engine._annual_return_from_risk (Py.PyInt 5) = Some a ∧
       (0.065 <= a)%Q ∧ (a <= 0.145)%Q ∧ Py.max (a / 12) 0.0001 = (a / 12)%Q.
Proof.
  eexists. split; [reflexivity|].
  apply (table_rate_above_floor (Py.PyInt 5)). reflexivity.
Defined.

(** X6 on a list whose first goal has no amount. *)
Lemma plans_follow_coercible_goals_witness :
  ∃ plans,
    @Engine.build_goal_plans Engine.plain_env
      [Engine.unpriced_goal; Engine.education_goal] (Py.PyInt 3) = Some plans ∧
    map Engine.name plans = ["Child education corpus"%string].
Proof.
  eexists. split; [reflexivity|].
  apply (@plans_follow_coercible_goals Engine.plain_env
           [Engine.unpriced_goal; Engine.education_goal] (Py.PyInt 3)).
  reflexivity.
Defined.


(** X10 on the default client snapshot. *)
Lemma cash_summary_ranges_witness :
  let s := Engine.summarize_cash_flow 120000 65000 10000 18000 25000 250000 in
  (0 <= Engine.savings_rate s)%Q ∧ (Engine.savings_rate s <= 1)%Q ∧
  Engine.runway_at_least (Engine.runway_months s) 0.
Proof.
  apply (cash_summary_ranges 120000 65000 10000 18000 25000 250000);
    discriminate.
Defined.

(** X11 on the default snapshot with a recommended SIP of 5000: the three
    conditions hold, so the dashboard is healthy. *)
Lemma healthy_dashboard_criterion_witness :
  @Engine.predictive_alerts Engine.plain_env
    (Engine.summarize_cash_flow 120000 65000 10000 18000 5000 250000)
  = [Engine.healthy_msg].
Proof.
  apply (@healthy_dashboard_criterion Engine.plain_env
           120000 65000 10000 18000 5000 250000); try discriminate.
  repeat split; discriminate.
Defined.

(** X13 on four numbers ranked by their tens: 25 and 21 tie and keep their
    order. *)
Lemma select_is_stable_witness :
  Engine.before 25%Z 21%Z [3%Z; 25%Z; 21%Z; 7%Z].
Proof.
  apply (@select_is_stable Z 2 (λ x, inject_Z (x / 10)) [3; 25; 21; 7]%Z).
  - exists [], [], []. reflexivity.
  - reflexivity.
Defined.


(** X19 on the sample fund and user 1: an amount is recommended. *)
Lemma recommended_investment_cases_witness :
  is_Some (Recommendation._calculate_recommended_investment
             Recommendation.sample_fund
             {| Recommendation.age := Some (Some 28%Z);
                Recommendation.income := Some (Some 80000%Q);
                Recommendation.risk_tolerance := Some (Some "moderate"%string) |}).
Proof.
  apply (proj1 (recommended_investment_cases _ _)). reflexivity.
Defined.

(** X20 on the sample tables: user 1, goal 4, limit 5. *)
Lemma get_recommendations_results_witness :
  ∃ out,
    @Recommendation.get_recommendations Recommendation.plain_collaborators
      Recommendation.sample_database 1 (Some 4%Z) 5 = Some out ∧
    (length out <= 5)%nat ∧
    Engine.descending Recommendation.match_score out.
Proof.
  eexists. split; [reflexivity|].
  destruct (@get_recommendations_results Recommendation.plain_collaborators
              Recommendation.sample_database 1 (Some 4%Z) 5 _ eq_refl
              ltac:(lia)) as (Hlen & Hsorted & _).
  split; [exact Hlen | exact Hsorted].
Defined.

(** X21 on user 2 of the sample tables, who has neither age nor risk
    tolerance. *)
Lemma get_recommendations_needs_profile_witness :
  @Recommendation.get_recommendations Recommendation.plain_collaborators
    Recommendation.sample_database 2 None 5 = None.
Proof.
  apply (@get_recommendations_needs_profile Recommendation.plain_collaborators
           Recommendation.sample_database 2 None 5);
    [left; reflexivity | discriminate].
Defined.

(** X22 on goal 4 of the sample tables: 300 days, ten months. *)
Lemma goal_horizon_at_least_one_month_witness :
  ∃ h, Recommendation.goal_horizon Recommendation.sample_database 1 (Some 4%Z)
       = Some h ∧ (1 <= h)%Q.
Proof.
  eexists. split; [reflexivity|].
  destruct (goal_horizon_at_least_one_month Recommendation.sample_database 1
              (Some 4%Z) _ eq_refl) as [H _].
  exact H.
Defined.

(** X24 on the database with one alert of user 1: user 2 cannot mark it. *)
Lemma mark_alert_read_effect_witness :
  AlertService.mark_alert_read AlertService.alerted_db 0 2
  = (AlertService.alerted_db, false).
Proof.
  destruct (mark_alert_read_effect AlertService.alerted_db 0 2 eq_refl)
    as (_ & Hsame & _).
  rewrite (surjective_pairing (AlertService.mark_alert_read _ _ _)).
  rewrite (Hsame eq_refl). reflexivity.
Defined.

(** X25 on the sample database at day 105. *)
Lemma generate_all_alerts_appends_witness :
  ∃ db1 created,
    @AlertService.generate_all_alerts AlertService.sample_backend
      (105 * AlertService.day) AlertService.sample_db 1 = Some (db1, created) ∧
    AlertService.alerts db1 = AlertService.alerts AlertService.sample_db ++ created ∧
    Forall (@AlertService.fresh AlertService.sample_backend
              (105 * AlertService.day) 1) created.
Proof.
  eexists _, _. split; [vm_compute; reflexivity|].
  destruct (@generate_all_alerts_appends AlertService.sample_backend
              (105 * AlertService.day) AlertService.sample_db 1 _ _
              eq_refl ltac:(vm_compute; reflexivity)) as (Halerts & Hfresh & _).
  split; [exact Halerts | exact Hfresh].
Defined.

(** X26 on the sample database, whose only goal has a target of 1,000,000
    and a current amount. *)
Lemma generate_all_alerts_succeeds_witness :
  is_Some (@AlertService.generate_all_alerts AlertService.sample_backend
             (105 * AlertService.day) AlertService.sample_db 1).
Proof.
  apply (@generate_all_alerts_succeeds AlertService.sample_backend).
  intros g Hg _. apply list_elem_of_singleton in Hg as ->.
  vm_compute. eauto.
Defined.

(** X27 on the database whose only goal has a zero target. *)
Lemma generate_all_alerts_fails_on_bad_goal_witness :
  @AlertService.generate_all_alerts AlertService.sample_backend
    (105 * AlertService.day) AlertService.zero_target_db 1 = None.
Proof.
  apply (@generate_all_alerts_fails_on_bad_goal AlertService.sample_backend
           (105 * AlertService.day) AlertService.zero_target_db 1
           AlertService.zero_target_goal []); reflexivity.
Defined.

(** X28 on the database with one unread low-balance alert, a day later. *)
Lemma read_alert_rearms_low_balance_witness :
  snd (@AlertService.check_low_balance AlertService.sample_backend
         (106 * AlertService.day) AlertService.alerted_db 1 5000) = None ∧
  is_Some (snd (@AlertService.check_low_balance AlertService.sample_backend
                  (106 * AlertService.day)
                  (fst (AlertService.mark_alert_read AlertService.alerted_db 0 1))
                  1 5000)).
Proof.
  apply (@read_alert_rearms_low_balance AlertService.sample_backend
           (106 * AlertService.day) AlertService.alerted_db 0 1 5000
           (@AlertService.low_balance_alert AlertService.sample_backend
              (105 * AlertService.day) 1
              (AlertService.balance_of AlertService.sample_db 1) 5000)).
  - reflexivity.
  - reflexivity.
  - reflexivity.
  - reflexivity.
  - intros [|j] b Hj Hb; [congruence|]. vm_compute in Hb. discriminate Hb.
Defined.

(** X29 on the front end's defaults: the emergency fund is added to the
    education goal. *)
Lemma added_goal_lowers_surplus_witness :
  ∃ s s',
    @Dashboard.cash_summary_for Engine.plain_env [Engine.education_goal]
      (Py.PyInt 3) 120000 65000 10000 18000 250000 = Some s ∧
    @Dashboard.cash_summary_for Engine.plain_env
      ([Engine.education_goal] ++ [Engine.emergency_goal])
      (Py.PyInt 3) 120000 65000 10000 18000 250000 = Some s' ∧
    (Engine.surplus s' <= Engine.surplus s)%Q.
Proof.
  destruct (@added_goal_lowers_surplus Engine.plain_env [Engine.education_goal]
              Engine.emergency_goal (Py.PyInt 3) 400000 2
              120000 65000 10000 18000 250000 _ eq_refl eq_refl eq_refl
              ltac:(discriminate))
    as (s' & rate & Hs' & _ & _ & Hle & _).
  eexists _, s'. split; [reflexivity|]. split; [exact Hs' | exact Hle].
Defined.

